(** * AI Agent Platform backend: handlers of [backend/main.py] and the
      cached settings of [backend/core/config.py]

    The backend is glue code: every handler calls out to collaborators
    (token verification, the agent, vector and LLM services, the connection
    manager, the socket) and reacts to what they return or raise.  The
    embedding keeps that shape:

    - Python values that cross the handlers are [pyval];
    - a Python exception (an instance of class [Exception], which is what
      every [except Exception] clause of the source names) is [exn];
    - the collaborators are the fields of the class [Backend]: arbitrary
      state transformers over an opaque state that either return or raise;
    - a handler is a computation in the monad [M], which threads the
      collaborators' state and the log of the calls performed so far, and
      whose result is a return value, a raised exception or [Pending] (the
      [while True] loop of the socket handler is still running). *)

From Stdlib Require Import ZArith String List Lia.
From Stdlib Require Import PrimFloat.
From Stdlib Require Import Ascii.
From stdpp Require Import base option list strings gmap.

Local Open Scope string_scope.
Local Open Scope Z_scope.

(** ** Python values *)

#[warnings="-register-all"]
Inductive pyval : Type :=
| PNone
| PBool (b : bool)
| PInt (z : Z)
| PFloat (f : float)
| PStr (s : string)
| PList (l : list pyval)
| PDict (d : gmap string pyval).

(** [bool(v)]: what [if v:] and [not v] test. *)
Definition truthy (v : pyval) : bool :=
  match v with
  | PNone => false
  | PBool b => b
  | PInt z => negb (z =? 0)
  | PFloat f => negb (PrimFloat.eqb f 0%float)
  | PStr s => negb (String.eqb s "")
  | PList l => match l with [] => false | _ => true end
  | PDict d => match map_to_list d with [] => false | _ => true end
  end.

(** ** Exceptions

    [HTTPException] and [WebSocketDisconnect] are the two classes the
    source names; [AttributeError] is what [v.get(...)] raises on a value
    that is no dict; [PyException cls msg] is any other instance of
    [Exception], of class [cls]. *)

Inductive exn : Type :=
| HTTPException (status_code : Z) (detail : string)
| WebSocketDisconnect (code : Z)
| AttributeError (msg : string)
| PyException (cls msg : string).

Definition is_WebSocketDisconnect (e : exn) : bool :=
  match e with WebSocketDisconnect _ => true | _ => false end.

(** What a call to a collaborator does: it returns or it raises. *)
Inductive outcome (A : Type) : Type :=
| Returns (a : A)
| Raises (e : exn).
Arguments Returns {A} a.
Arguments Raises {A} e.

(** [type(v).__name__] *)
Definition type_name (v : pyval) : string :=
  match v with
  | PNone => "NoneType"
  | PBool _ => "bool"
  | PInt _ => "int"
  | PFloat _ => "float"
  | PStr _ => "str"
  | PList _ => "list"
  | PDict _ => "dict"
  end.

Definition no_attribute (v : pyval) (attr : string) : exn :=
  AttributeError ("'" ++ type_name v ++ "' object has no attribute '" ++ attr ++ "'").

(** [v.get(key, default)]: only a dict has the method. *)
Definition py_get (v : pyval) (key : string) (dflt : pyval) : outcome pyval :=
  match v with
  | PDict d => Returns (default dflt (d !! key))
  | _ => Raises (no_attribute v "get")
  end.

(** ** Calls and the log of calls *)

Definition websocket := nat.
Definition db_session := nat.

Inductive service := AgentSvc | VectorSvc | LLMSvc.

Inductive log_level := INFO | ERROR.

(** The object interpolated into an f-string of a log line. *)
Inductive log_arg :=
| LogExn (e : exn)
| LogVal (v : pyval).

Inductive event : Type :=
| EvLog (level : log_level) (prefix : string) (arg : log_arg)
| EvHealthCheck (s : service)
| EvUtcNow
| EvVerifyToken (token : string)
| EvClose (ws : websocket) (code : Z) (reason : string)
| EvConnect (ws : websocket) (user_id : pyval)
| EvReceiveJson (ws : websocket)
| EvProcessMessage (agent_id : string) (user_id message conversation_id : pyval)
                   (ws : websocket)
| EvSendJson (ws : websocket) (data : pyval)
| EvDisconnect (ws : websocket)
| EvGetDb
| EvCreateAgent (user_id : pyval) (name description system_prompt model : string)
                (tools : list string) (settings : gmap string pyval)
                (db : db_session)
| EvGetUserAgents (user_id : pyval) (db : db_session)
| EvChatWithAgent (user_id : pyval) (agent_id message : string)
                  (conversation_id : option string) (stream : bool)
                  (db : db_session).

(** ** The collaborators

    None of them is defined in [main.py]; each is a state transformer over
    the state [ext] of everything outside the handler (other tasks that run
    while the handler awaits are part of it). *)

Class Backend : Type := {
  ext : Type;
  (* str(e) *)
  py_str : exn -> string;
  (* core.security.verify_token *)
  verify_token : string -> ext -> outcome pyval * ext;
  (* agent_service / vector_service / llm_service .health_check() *)
  svc_health_check : service -> ext -> outcome bool * ext;
  (* datetime.utcnow().isoformat() *)
  utcnow_isoformat : ext -> string * ext;
  (* websocket.close(code, reason), .receive_json(), .send_json(data) *)
  ws_close : websocket -> Z -> string -> ext -> outcome unit * ext;
  ws_receive_json : websocket -> ext -> outcome pyval * ext;
  ws_send_json : websocket -> pyval -> ext -> outcome unit * ext;
  (* connection_manager.connect(websocket, user_id), .disconnect(websocket) *)
  cm_connect : websocket -> pyval -> ext -> outcome unit * ext;
  cm_disconnect : websocket -> ext -> outcome unit * ext;
  (* websocket_service.process_message(agent_id, user_id, message,
     conversation_id, websocket) *)
  ws_process_message :
    string -> pyval -> pyval -> pyval -> websocket -> ext -> outcome pyval * ext;
  (* core.database.get_db *)
  get_db : ext -> outcome db_session * ext;
  (* agent_service.create_agent / get_user_agents / chat_with_agent *)
  svc_create_agent :
    pyval -> string -> string -> string -> string -> list string ->
    gmap string pyval -> db_session -> ext -> outcome pyval * ext;
  svc_get_user_agents : pyval -> db_session -> ext -> outcome pyval * ext;
  svc_chat_with_agent :
    pyval -> string -> string -> option string -> bool -> db_session ->
    ext -> outcome pyval * ext;
}.

(** ** The handler monad *)

Inductive res (A : Type) : Type :=
| Ok (a : A)
| Raise (e : exn)
| Pending.
Arguments Ok {A} a.
Arguments Raise {A} e.
Arguments Pending {A}.

Section Handlers.
Context {B : Backend}.

Record world : Type := World { w_ext : ext; w_trace : list event }.

Definition M (A : Type) : Type := world -> res A * world.

Definition ret {A} (a : A) : M A := fun w => (Ok a, w).
Definition raise {A} (e : exn) : M A := fun w => (Raise e, w).
Definition pending {A} : M A := fun w => (Pending, w).

Definition bind {A C} (m : M A) (k : A -> M C) : M C :=
  fun w =>
    match m w with
    | (Ok a, w') => k a w'
    | (Raise e, w') => (Raise e, w')
    | (Pending, w') => (Pending, w')
    end.

(** [try: m  except Exception as e: h e] *)
Definition try_except {A} (m : M A) (h : exn -> M A) : M A :=
  fun w =>
    match m w with
    | (Raise e, w') => h e w'
    | r => r
    end.

(** [try: m  finally: f]: [f] runs once [m] has returned or raised; an
    exception of [f] replaces the outcome of [m]. *)
Definition try_finally {A} (m : M A) (f : M unit) : M A :=
  fun w =>
    match m w with
    | (Pending, w') => (Pending, w')
    | (r, w') =>
        match f w' with
        | (Ok _, w'') => (r, w'')
        | (Raise e, w'') => (Raise e, w'')
        | (Pending, w'') => (Pending, w'')
        end
    end.

Definition emit (ev : event) : M unit :=
  fun w => (Ok tt, World (w_ext w) (w_trace w ++ [ev])).

Definition of_outcome {A} (o : outcome A) : M A :=
  match o with Returns a => ret a | Raises e => raise e end.

Definition to_res {A} (o : outcome A) : res A :=
  match o with Returns a => Ok a | Raises e => Raise e end.

(** A call to a collaborator: logged, then performed. *)
Definition call {A} (ev : event) (op : ext -> outcome A * ext) : M A :=
  fun w =>
    let (o, s) := op (w_ext w) in
    of_outcome o (World s (w_trace w ++ [ev])).

Definition logger_error (prefix : string) (e : exn) : M unit :=
  emit (EvLog ERROR prefix (LogExn e)).
Definition logger_info (prefix : string) (v : pyval) : M unit :=
  emit (EvLog INFO prefix (LogVal v)).

End Handlers.

Notation "x <- m ;; k" := (bind m (fun x => k))
  (at level 100, m at next level, right associativity).
Notation "m ;;; k" := (bind m (fun _ => k))
  (at level 100, right associativity).

(** ** [GET /health] *)

Record HealthResponse : Type := mkHealthResponse {
  status : string;
  version : string;
  timestamp : string;
  database : bool;
  vector_db : bool;
  llm_service : bool;
}.

(** [HealthResponse(timestamp=.., database=.., vector_db=.., llm_service=..)]:
    [status] and [version] are not passed and take their class defaults. *)
Definition HealthResponse_init (timestamp : string)
    (database vector_db llm_service : bool) : HealthResponse :=
  {| status := "healthy";
     version := "1.0.0";
     timestamp := timestamp;
     database := database;
     vector_db := vector_db;
     llm_service := llm_service |}.

(** What a probe contributes to the response: the boolean it returned, and
    [False] when it raised. *)
Definition probe_flag (o : outcome bool) : bool :=
  match o with Returns b => b | Raises _ => false end.

Section Health.
Context {B : Backend}.

Definition utcnow : M string :=
  fun w =>
    let (t, s) := utcnow_isoformat (w_ext w) in
    (Ok t, World s (w_trace w ++ [EvUtcNow])).

Definition health_check : M HealthResponse :=
  db_healthy <-
    try_except (call (EvHealthCheck AgentSvc) (svc_health_check AgentSvc))
      (fun e => logger_error "Database health check failed: " e ;;; ret false) ;;
  vector_healthy <-
    try_except (call (EvHealthCheck VectorSvc) (svc_health_check VectorSvc))
      (fun e => logger_error "Vector database health check failed: " e ;;; ret false) ;;
  llm_healthy <-
    try_except (call (EvHealthCheck LLMSvc) (svc_health_check LLMSvc))
      (fun e => logger_error "LLM service health check failed: " e ;;; ret false) ;;
  now <- utcnow ;;
  ret (HealthResponse_init now db_healthy vector_healthy llm_healthy).

End Health.

(** ** Request models

    The validated models the route handlers receive. *)

Record AgentCreateRequest : Type := mkAgentCreateRequest {
  name : string;
  description : string;
  system_prompt : string;
  model : string;
  tools : list string;
  settings : gmap string pyval;
}.

Record ChatMessage : Type := mkChatMessage {
  role : string;
  content : string;
  cm_timestamp : option string;
  metadata : gmap string pyval;
}.

Record ChatRequest : Type := mkChatRequest {
  message : string;
  agent_id : string;
  conversation_id : option string;
  stream : bool;
}.

(** What [HTTPBearer] hands to [get_current_user]. *)
Record HTTPAuthorizationCredentials : Type := mkCredentials {
  scheme : string;
  credentials : string;
}.

Section Auth.
Context {B : Backend}.

(** ** Authentication dependency *)

Definition get_current_user (creds : HTTPAuthorizationCredentials) : M pyval :=
  try_except
    (payload <- call (EvVerifyToken (credentials creds))
                     (verify_token (credentials creds)) ;;
     user_id <- of_outcome (py_get payload "sub" PNone) ;;
     if negb (truthy user_id)
     then raise (HTTPException 401 "Invalid token")
     else ret user_id)
    (fun e =>
       logger_error "Authentication failed: " e ;;;
       raise (HTTPException 401 "Authentication failed")).

(** ** [/ws/chat/{agent_id}] *)

(** One pass through the body of [while True]. *)
Definition receive_step (ws : websocket) (agent : string) (user_id : pyval)
  : M unit :=
  data <- call (EvReceiveJson ws) (ws_receive_json ws) ;;
  msg <- of_outcome (py_get data "message" (PStr "")) ;;
  conv <- of_outcome (py_get data "conversation_id" PNone) ;;
  response <- call (EvProcessMessage agent user_id msg conv ws)
                   (ws_process_message agent user_id msg conv ws) ;;
  call (EvSendJson ws response) (ws_send_json ws response).

(** [while True: ...]: the loop has no exit of its own; [fuel] bounds the
    number of passes the model follows, and the loop is [Pending] beyond. *)
Fixpoint receive_loop (fuel : nat) (ws : websocket) (agent : string)
    (user_id : pyval) : M unit :=
  match fuel with
  | O => pending
  | S n => receive_step ws agent user_id ;;; receive_loop n ws agent user_id
  end.

(** The [try / except WebSocketDisconnect / except Exception / finally]
    statement around the loop. *)
Definition chat_session (fuel : nat) (ws : websocket) (agent : string)
    (user_id : pyval) : M unit :=
  try_finally
    (try_except (receive_loop fuel ws agent user_id)
       (fun e =>
          if is_WebSocketDisconnect e
          then logger_info "WebSocket disconnected for user " user_id
          else
            logger_error "WebSocket error: " e ;;;
            call (EvClose ws 4000 "Internal server error")
                 (ws_close ws 4000 "Internal server error")))
    (call (EvDisconnect ws) (cm_disconnect ws)).

(** The calls a session on socket [ws] for agent [agent] and user
    [user_id] may perform. *)
Definition session_event (ws : websocket) (agent : string) (user_id : pyval)
    (ev : event) : Prop :=
  match ev with
  | EvReceiveJson ws' => ws' = ws
  | EvProcessMessage a u _ _ ws' => a = agent /\ u = user_id /\ ws' = ws
  | EvSendJson ws' _ => ws' = ws
  | EvLog _ _ _ => True
  | EvClose ws' code _ => ws' = ws /\ code = 4000
  | EvDisconnect ws' => ws' = ws
  | _ => False
  end.

(** [if token:] on an [Optional[str]] *)
Definition token_given (token : option string) : bool :=
  match token with
  | Some t => truthy (PStr t)
  | None => false
  end.

(** The authentication block: [Some user_id] when the handler goes on,
    [None] when it has executed [return]. *)
Definition ws_authenticate (ws : websocket) (token : option string)
  : M (option pyval) :=
  match token with
  | Some t =>
      if truthy (PStr t)
      then
        try_except
          (payload <- call (EvVerifyToken t) (verify_token t) ;;
           user_id <- of_outcome (py_get payload "sub" PNone) ;;
           ret (Some user_id))
          (fun e =>
             logger_error "WebSocket authentication failed: " e ;;;
             call (EvClose ws 4001 "Authentication failed")
                  (ws_close ws 4001 "Authentication failed") ;;;
             ret None)
      else ret (Some PNone)
  | None => ret (Some PNone)
  end.

Definition websocket_chat (fuel : nat) (ws : websocket) (agent : string)
    (token : option string) : M unit :=
  auth <- ws_authenticate ws token ;;
  match auth with
  | None => ret tt
  | Some user_id =>
      call (EvConnect ws user_id) (cm_connect ws user_id) ;;;
      chat_session fuel ws agent user_id
  end.

(** ** Route handlers *)

Definition create_agent (request : AgentCreateRequest) (user_id : pyval)
    (db : db_session) : M pyval :=
  try_except
    (agent <- call (EvCreateAgent user_id (name request) (description request)
                      (system_prompt request) (model request) (tools request)
                      (settings request) db)
                   (svc_create_agent user_id (name request) (description request)
                      (system_prompt request) (model request) (tools request)
                      (settings request) db) ;;
     ret (PDict {[ "message" := PStr "Agent created successfully";
                   "agent" := agent ]}))
    (fun e =>
       logger_error "Error creating agent: " e ;;;
       raise (HTTPException 500 (py_str e))).

Definition list_agents (user_id : pyval) (db : db_session) : M pyval :=
  try_except
    (agents <- call (EvGetUserAgents user_id db) (svc_get_user_agents user_id db) ;;
     ret (PDict {[ "agents" := agents ]}))
    (fun e =>
       logger_error "Error listing agents: " e ;;;
       raise (HTTPException 500 (py_str e))).

Definition chat_with_agent (request : ChatRequest) (user_id : pyval)
    (db : db_session) : M pyval :=
  try_except
    (response <- call (EvChatWithAgent user_id (agent_id request) (message request)
                         (conversation_id request) (stream request) db)
                      (svc_chat_with_agent user_id (agent_id request)
                         (message request) (conversation_id request)
                         (stream request) db) ;;
     ret response)
    (fun e =>
       logger_error "Error in chat: " e ;;;
       raise (HTTPException 500 (py_str e))).

(** [user_id = Depends(get_current_user), db = Depends(get_db)]: the
    framework resolves the dependencies, then calls the handler with what
    they returned; a dependency that raises ends the request. *)
Definition with_dependencies {A} (handler : pyval -> db_session -> M A)
    (creds : HTTPAuthorizationCredentials) : M A :=
  user_id <- get_current_user creds ;;
  db <- call EvGetDb get_db ;;
  handler user_id db.

Definition route_create_agent creds (request : AgentCreateRequest) : M pyval :=
  with_dependencies (create_agent request) creds.
Definition route_list_agents creds : M pyval :=
  with_dependencies list_agents creds.
Definition route_chat_with_agent creds (request : ChatRequest) : M pyval :=
  with_dependencies (chat_with_agent request) creds.

End Auth.

(** ** Validation of request bodies

    [main.py] declares the models; pydantic validates a body against the
    declaration field by field.  A field declared with [Field(...)] is
    required; a field with a default (or a default factory) takes it when
    the body has no entry for it; an entry that is present goes through the
    validator of the field's type.  The type validators are pydantic's own
    and are taken as they come. *)

Inductive field_error : Type :=
| FieldRequired (loc : string)      (* value_error.missing *)
| FieldInvalid (loc : string)       (* type_error.* *)
| BodyNotADict.

Inductive validation (A : Type) : Type :=
| Valid (a : A)
| ValidationError (errors : list field_error).
Arguments Valid {A} a.
Arguments ValidationError {A} errors.

Section Validation.
Variable str_validator : pyval -> option string.
Variable bool_validator : pyval -> option bool.
Variable list_str_validator : pyval -> option (list string).
Variable dict_validator : pyval -> option (gmap string pyval).

(** [Optional[T]]: [None] is allowed, anything else is validated as [T]. *)
Definition optional_validator {A} (v : pyval -> option A) (x : pyval)
  : option (option A) :=
  match x with
  | PNone => Some None
  | _ => Some <$> v x
  end.

(** [name: T = Field(...)] *)
Definition required_field {A} (v : pyval -> option A)
    (d : gmap string pyval) (loc : string) : field_error + A :=
  match d !! loc with
  | None => inl (FieldRequired loc)
  | Some x => match v x with
              | Some a => inr a
              | None => inl (FieldInvalid loc)
              end
  end.

(** [name: T = Field(default=dflt)], [Field(default_factory=...)] and
    [name: T = dflt] *)
Definition default_field {A} (v : pyval -> option A) (dflt : A)
    (d : gmap string pyval) (loc : string) : field_error + A :=
  match d !! loc with
  | None => inr dflt
  | Some x => match v x with
              | Some a => inr a
              | None => inl (FieldInvalid loc)
              end
  end.

Definition errors_of {A} (r : field_error + A) : list field_error :=
  match r with inl e => [e] | inr _ => [] end.

Definition validate_AgentCreateRequest (body : pyval)
  : validation AgentCreateRequest :=
  match body with
  | PDict d =>
      let f_name := required_field str_validator d "name" in
      let f_description := required_field str_validator d "description" in
      let f_system_prompt := required_field str_validator d "system_prompt" in
      let f_model := default_field str_validator "gpt-4" d "model" in
      let f_tools := default_field list_str_validator [] d "tools" in
      let f_settings := default_field dict_validator ∅ d "settings" in
      match f_name, f_description, f_system_prompt, f_model, f_tools, f_settings with
      | inr n, inr de, inr sp, inr mo, inr to, inr se =>
          Valid (mkAgentCreateRequest n de sp mo to se)
      | _, _, _, _, _, _ =>
          ValidationError
            (errors_of f_name ++ errors_of f_description ++
             errors_of f_system_prompt ++ errors_of f_model ++
             errors_of f_tools ++ errors_of f_settings)
      end
  | _ => ValidationError [BodyNotADict]
  end.

Definition validate_ChatMessage (body : pyval) : validation ChatMessage :=
  match body with
  | PDict d =>
      let f_role := required_field str_validator d "role" in
      let f_content := required_field str_validator d "content" in
      let f_timestamp :=
        default_field (optional_validator str_validator) None d "timestamp" in
      let f_metadata := default_field dict_validator ∅ d "metadata" in
      match f_role, f_content, f_timestamp, f_metadata with
      | inr r, inr c, inr t, inr m => Valid (mkChatMessage r c t m)
      | _, _, _, _ =>
          ValidationError
            (errors_of f_role ++ errors_of f_content ++
             errors_of f_timestamp ++ errors_of f_metadata)
      end
  | _ => ValidationError [BodyNotADict]
  end.

Definition validate_ChatRequest (body : pyval) : validation ChatRequest :=
  match body with
  | PDict d =>
      let f_message := required_field str_validator d "message" in
      let f_agent_id := required_field str_validator d "agent_id" in
      let f_conversation_id :=
        default_field (optional_validator str_validator) None d "conversation_id" in
      let f_stream := default_field bool_validator false d "stream" in
      match f_message, f_agent_id, f_conversation_id, f_stream with
      | inr m, inr a, inr c, inr st => Valid (mkChatRequest m a c st)
      | _, _, _, _ =>
          ValidationError
            (errors_of f_message ++ errors_of f_agent_id ++
             errors_of f_conversation_id ++ errors_of f_stream)
      end
  | _ => ValidationError [BodyNotADict]
  end.

End Validation.

(** ** Cached settings ([core/config.py])

    [Settings()] reads the process environment and either builds a settings
    object or raises (three fields are required).  What it builds is of no
    concern to [get_settings]: the constructor is a parameter, a function
    of the environment at the time of the call.  Objects live in a heap and
    are identified by their address, so that "the same instance" can be
    told from "an equal one". *)

Module Config.
Section Settings.
Variable Settings : Type.
Variable Settings_init : gmap string string -> outcome Settings.

Record process : Type := Process {
  environ : gmap string string;     (* os.environ and the .env file *)
  heap : list Settings;             (* the Settings objects built so far *)
  cache : option nat;               (* lru_cache: the entry of the call () *)
  init_runs : nat;                  (* how often Settings() has run *)
}.

(** [Settings()] *)
Definition new_Settings (p : process) : outcome nat * process :=
  match Settings_init (environ p) with
  | Returns v =>
      (Returns (length (heap p)),
       Process (environ p) (heap p ++ [v]) (cache p) (S (init_runs p)))
  | Raises e =>
      (Raises e, Process (environ p) (heap p) (cache p) (S (init_runs p)))
  end.

(** [@lru_cache()] around a function without arguments: every call has
    the same key; a hit returns the stored object, a miss calls the
    function and stores what it returns; nothing is stored when it raises. *)
Definition lru_cache (f : process -> outcome nat * process) (p : process)
  : outcome nat * process :=
  match cache p with
  | Some a => (Returns a, p)
  | None =>
      match f p with
      | (Returns a, p') =>
          (Returns a, Process (environ p') (heap p') (Some a) (init_runs p'))
      | (Raises e, p') => (Raises e, p')
      end
  end.

Definition get_settings : process -> outcome nat * process :=
  lru_cache new_Settings.

(** The state of a process that has not imported the module yet. *)
Definition fresh (env : gmap string string) : process :=
  Process env [] None 0.

(** Import of the module: [settings = get_settings()]; the import fails
    when the call raises.  Returns the module global [settings]. *)
Definition import_config (env : gmap string string) : outcome nat * process :=
  get_settings (fresh env).

Definition set_environ (env : gmap string string) (p : process) : process :=
  Process env (heap p) (cache p) (init_runs p).

(** The states of a process in which the module is loaded: the state
    after a successful import with module global [settings = a], and what
    calls of [get_settings] and changes of the environment make of it. *)
Inductive running (a : nat) : process -> Prop :=
| running_import env p :
    import_config env = (Returns a, p) -> running a p
| running_call p :
    running a p -> running a (snd (get_settings p))
| running_environ env p :
    running a p -> running a (set_environ env p).

End Settings.
End Config.

(** ** The validators of [Settings] ([core/config.py])

    [parse_cors_origins], [parse_cors_methods] and [parse_cors_headers]
    turn a comma separated string into the list of its stripped pieces and
    leave any other value alone.  A [str] is the sequence of its code
    points, here those below 256; [is_space] is [str.isspace] on them. *)

Definition is_space (c : ascii) : bool :=
  let n := nat_of_ascii c in
  ((9 <=? n)%nat && (n <=? 13)%nat)
  || ((28 <=? n)%nat && (n <=? 32)%nat)
  || (n =? 133)%nat
  || (n =? 160)%nat.

(** [s.lstrip()] *)
Fixpoint str_lstrip (s : string) : string :=
  match s with
  | EmptyString => EmptyString
  | String c s' => if is_space c then str_lstrip s' else s
  end.

(** [s.rstrip()] *)
Fixpoint str_rstrip (s : string) : string :=
  match s with
  | EmptyString => EmptyString
  | String c s' =>
      match str_rstrip s' with
      | EmptyString => if is_space c then EmptyString else String c EmptyString
      | r => String c r
      end
  end.

(** [s.strip()] *)
Definition str_strip (s : string) : string := str_rstrip (str_lstrip s).

(** [s.split(sep)] for a separator of one character: the pieces between
    the occurrences of [sep], empty pieces included. *)
Fixpoint str_split (sep : ascii) (s : string) : list string :=
  match s with
  | EmptyString => [EmptyString]
  | String c s' =>
      if Ascii.eqb c sep then EmptyString :: str_split sep s'
      else match str_split sep s' with
           | piece :: rest => String c piece :: rest
           | [] => [String c EmptyString]
           end
  end.

(** [sep.join(l)] *)
Fixpoint str_join (sep : string) (l : list string) : string :=
  match l with
  | [] => EmptyString
  | [x] => x
  | x :: rest => x ++ sep ++ str_join sep rest
  end.

Definition comma : ascii := "," % char.

Definition parse_cors_origins (v : pyval) : pyval :=
  match v with
  | PStr s => PList (map (fun origin => PStr (str_strip origin)) (str_split comma s))
  | _ => v
  end.

Definition parse_cors_methods (v : pyval) : pyval :=
  match v with
  | PStr s => PList (map (fun method => PStr (str_strip method)) (str_split comma s))
  | _ => v
  end.

Definition parse_cors_headers (v : pyval) : pyval :=
  match v with
  | PStr s => PList (map (fun header => PStr (str_strip header)) (str_split comma s))
  | _ => v
  end.

(** Number of occurrences of a character, first and last character. *)
Fixpoint str_count (c : ascii) (s : string) : nat :=
  match s with
  | EmptyString => 0
  | String c' s' => (if Ascii.eqb c' c then 1 else 0) + str_count c s'
  end.

Definition starts_with_space (s : string) : bool :=
  match s with
  | EmptyString => false
  | String c _ => is_space c
  end.

Fixpoint ends_with_space (s : string) : bool :=
  match s with
  | EmptyString => false
  | String c EmptyString => is_space c
  | String _ s' => ends_with_space s'
  end.

(** ** The shape of a session's calls

    A complete pass of the receive loop is a [receive_json], the
    [process_message] for what was received and the [send_json] of the
    answer; a pass that raises is cut short after the call that raised.
    The teardown is what the [except] and [finally] clauses call. *)

Inductive passes (ws : websocket) (agent : string) (user_id : pyval)
  : nat -> list event -> Prop :=
| passes_O : passes ws agent user_id 0 []
| passes_S n tr msg conv response :
    passes ws agent user_id n tr ->
    passes ws agent user_id (S n)
      (EvReceiveJson ws :: EvProcessMessage agent user_id msg conv ws
       :: EvSendJson ws response :: tr).

Definition cut_pass (ws : websocket) (agent : string) (user_id : pyval)
    (tr : list event) : Prop :=
  tr = [EvReceiveJson ws] \/
  (exists msg conv,
     tr = [EvReceiveJson ws; EvProcessMessage agent user_id msg conv ws]) \/
  (exists msg conv response,
     tr = [EvReceiveJson ws; EvProcessMessage agent user_id msg conv ws;
           EvSendJson ws response]).

Definition teardown (ws : websocket) (user_id : pyval) (e : exn) : list event :=
  if is_WebSocketDisconnect e
  then [EvLog INFO "WebSocket disconnected for user " (LogVal user_id);
        EvDisconnect ws]
  else [EvLog ERROR "WebSocket error: " (LogExn e);
        EvClose ws 4000 "Internal server error";
        EvDisconnect ws].

(** The probes among the calls of a trace, and its error log lines. *)
Fixpoint probes_of (tr : list event) : list service :=
  match tr with
  | [] => []
  | EvHealthCheck s :: tr' => s :: probes_of tr'
  | _ :: tr' => probes_of tr'
  end.

Fixpoint error_logs (tr : list event) : nat :=
  match tr with
  | [] => 0
  | EvLog ERROR _ _ :: tr' => S (error_logs tr')
  | _ :: tr' => error_logs tr'
  end.

Definition raised {A} (o : outcome A) : nat :=
  match o with Returns _ => 0 | Raises _ => 1 end.

(** ** Application lifespan ([lifespan] in [main.py])

    [lifespan] is an [asynccontextmanager]: the code before [yield] runs
    when the application starts, the application is served while the
    generator is suspended, and the code after [yield] runs when serving
    has returned.  It has no [try]: an exception of a startup call leaves
    the generator, and an exception of the serving phase is raised at the
    [yield] and leaves it the same way.  The database, the vector service
    and the LLM service are state transformers over a state of their own. *)

Inductive lifespan_call : Type :=
| LcInfo (msg : string)        (* logger.info *)
| LcInitDb                     (* init_db() *)
| LcVectorInitialize           (* vector_service.initialize() *)
| LcLLMInitialize              (* llm_service.initialize() *)
| LcServe                      (* yield *)
| LcVectorClose                (* vector_service.close() *)
| LcLLMClose.                  (* llm_service.close() *)

Class Lifecycle : Type := {
  lc_state : Type;
  init_db : lc_state -> outcome unit * lc_state;
  vector_initialize : lc_state -> outcome unit * lc_state;
  llm_initialize : lc_state -> outcome unit * lc_state;
  vector_close : lc_state -> outcome unit * lc_state;
  llm_close : lc_state -> outcome unit * lc_state;
}.

Section Lifespan.
Context {L : Lifecycle}.

Definition LM : Type :=
  lc_state * list lifespan_call -> outcome unit * (lc_state * list lifespan_call).

Definition lc_call (c : lifespan_call) (op : lc_state -> outcome unit * lc_state)
  : LM :=
  fun w =>
    let (o, s) := op (fst w) in
    (o, (s, (snd w ++ [c])%list)).

Definition lc_info (msg : string) : LM :=
  fun w => (Returns tt, (fst w, (snd w ++ [LcInfo msg])%list)).

Definition lc_then (m k : LM) : LM :=
  fun w =>
    match m w with
    | (Returns _, w') => k w'
    | (Raises e, w') => (Raises e, w')
    end.

(** The statements before [yield]. *)
Definition lifespan_startup : LM :=
  lc_then (lc_info "Starting AI Agent Platform...")
    (lc_then (lc_call LcInitDb init_db)
       (lc_then (lc_call LcVectorInitialize vector_initialize)
          (lc_then (lc_call LcLLMInitialize llm_initialize)
             (lc_info "AI Agent Platform started successfully!")))).

(** The statements after [yield]. *)
Definition lifespan_shutdown : LM :=
  lc_then (lc_info "Shutting down AI Agent Platform...")
    (lc_then (lc_call LcVectorClose vector_close)
       (lc_then (lc_call LcLLMClose llm_close)
          (lc_info "AI Agent Platform shut down successfully!"))).

(** [async with lifespan(app): serve] *)
Definition lifespan (serve : lc_state -> outcome unit * lc_state) : LM :=
  lc_then lifespan_startup
    (lc_then (lc_call LcServe serve) lifespan_shutdown).

End Lifespan.

(** The calls of a lifespan in which nothing raises. *)
Definition lifespan_script : list lifespan_call :=
  [LcInfo "Starting AI Agent Platform...";
   LcInitDb; LcVectorInitialize; LcLLMInitialize;
   LcInfo "AI Agent Platform started successfully!";
   LcServe;
   LcInfo "Shutting down AI Agent Platform...";
   LcVectorClose; LcLLMClose;
   LcInfo "AI Agent Platform shut down successfully!"].

(** A scripted lifecycle: the state is the list of the calls that are to
    raise. *)
Definition lc_eqb (a b : lifespan_call) : bool :=
  match a, b with
  | LcInitDb, LcInitDb | LcVectorInitialize, LcVectorInitialize
  | LcLLMInitialize, LcLLMInitialize | LcServe, LcServe
  | LcVectorClose, LcVectorClose | LcLLMClose, LcLLMClose => true
  | LcInfo m, LcInfo m' => String.eqb m m'
  | _, _ => false
  end.

Definition demo_op (c : lifespan_call) (failing : list lifespan_call)
  : outcome unit * list lifespan_call :=
  if existsb (lc_eqb c) failing
  then (Raises (PyException "RuntimeError" "unavailable"), failing)
  else (Returns tt, failing).

#[local] Instance demo_lifecycle : Lifecycle := {|
  lc_state := list lifespan_call;
  init_db := demo_op LcInitDb;
  vector_initialize := demo_op LcVectorInitialize;
  llm_initialize := demo_op LcLLMInitialize;
  vector_close := demo_op LcVectorClose;
  llm_close := demo_op LcLLMClose;
|}.

Definition demo_lc (failing : list lifespan_call)
  : @lc_state demo_lifecycle * list lifespan_call :=
  (failing, []).

(** ** The fields of [Settings] ([core/config.py])

    [Settings] is a pydantic [BaseSettings]: each field is read from the
    variable of the same name (names are case sensitive) in the
    environment, which here stands for [os.environ] over the [.env] file.
    A field without a default ([Field(...)]) is required.  The text of a
    variable of a [List] field is decoded as JSON before validation, the
    text of any other variable is validated as it is; a field that has a
    [@validator(.., pre=True)] goes through it first; defaults are not
    validated.  JSON decoding and the validators of the field types are
    pydantic's and are parameters. *)

Inductive field_type : Type :=
| TStr | TBool | TInt | TFloat | TListStr | TOptionalStr.

Record settings_field : Type := mkField {
  field_name : string;
  field_type_of : field_type;
  field_default : option pyval;     (* [None]: the field is required *)
}.

Definition Settings_fields : list settings_field :=
  [
   mkField "APP_NAME" TStr (Some (PStr "AI Agent Platform"));
   mkField "APP_VERSION" TStr (Some (PStr "1.0.0"));
   mkField "DEBUG" TBool (Some (PBool false));
   mkField "HOST" TStr (Some (PStr "0.0.0.0"));
   mkField "PORT" TInt (Some (PInt 8000));
   mkField "ALLOWED_ORIGINS" TListStr
     (Some (PList [PStr "http://localhost:3000";
        PStr "http://localhost:8000";
        PStr "https://localhost:3000"]));
   mkField "DATABASE_URL" TStr None;
   mkField "DATABASE_ECHO" TBool (Some (PBool false));
   mkField "REDIS_URL" TStr (Some (PStr "redis://localhost:6379"));
   mkField "SECRET_KEY" TStr None;
   mkField "ALGORITHM" TStr (Some (PStr "HS256"));
   mkField "ACCESS_TOKEN_EXPIRE_MINUTES" TInt (Some (PInt 30));
   mkField "OPENAI_API_KEY" TStr None;
   mkField "OPENAI_ORGANIZATION" TOptionalStr (Some (PNone));
   mkField "OPENAI_MODEL" TStr (Some (PStr "gpt-4"));
   mkField "ANTHROPIC_API_KEY" TOptionalStr (Some (PNone));
   mkField "GOOGLE_AI_API_KEY" TOptionalStr (Some (PNone));
   mkField "PINECONE_API_KEY" TOptionalStr (Some (PNone));
   mkField "PINECONE_ENVIRONMENT" TOptionalStr (Some (PNone));
   mkField "PINECONE_INDEX_NAME" TStr (Some (PStr "ai-agent-platform"));
   mkField "WEAVIATE_URL" TOptionalStr (Some (PNone));
   mkField "WEAVIATE_API_KEY" TOptionalStr (Some (PNone));
   mkField "CHROMA_HOST" TStr (Some (PStr "localhost"));
   mkField "CHROMA_PORT" TInt (Some (PInt 8000));
   mkField "LANGCHAIN_TRACING_V2" TBool (Some (PBool false));
   mkField "LANGCHAIN_ENDPOINT" TOptionalStr (Some (PNone));
   mkField "LANGCHAIN_API_KEY" TOptionalStr (Some (PNone));
   mkField "LANGCHAIN_PROJECT" TOptionalStr (Some (PNone));
   mkField "AWS_ACCESS_KEY_ID" TOptionalStr (Some (PNone));
   mkField "AWS_SECRET_ACCESS_KEY" TOptionalStr (Some (PNone));
   mkField "AWS_REGION" TStr (Some (PStr "us-east-1"));
   mkField "AWS_S3_BUCKET" TOptionalStr (Some (PNone));
   mkField "SMTP_HOST" TOptionalStr (Some (PNone));
   mkField "SMTP_PORT" TInt (Some (PInt 587));
   mkField "SMTP_USER" TOptionalStr (Some (PNone));
   mkField "SMTP_PASSWORD" TOptionalStr (Some (PNone));
   mkField "CELERY_BROKER_URL" TStr (Some (PStr "redis://localhost:6379/0"));
   mkField "CELERY_RESULT_BACKEND" TStr
     (Some (PStr "redis://localhost:6379/0"));
   mkField "RATE_LIMIT_ENABLED" TBool (Some (PBool true));
   mkField "RATE_LIMIT_PER_MINUTE" TInt (Some (PInt 100));
   mkField "SENTRY_DSN" TOptionalStr (Some (PNone));
   mkField "MAX_FILE_SIZE" TInt (Some (PInt (10 * 1024 * 1024)));
   mkField "UPLOAD_DIR" TStr (Some (PStr "uploads"));
   mkField "DEFAULT_AGENT_MODEL" TStr (Some (PStr "gpt-4"));
   mkField "MAX_AGENTS_PER_USER" TInt (Some (PInt 10));
   mkField "MAX_CONVERSATIONS_PER_USER" TInt (Some (PInt 100));
   mkField "WEBSOCKET_PING_INTERVAL" TInt (Some (PInt 30));
   mkField "WEBSOCKET_PING_TIMEOUT" TInt (Some (PInt 10));
   mkField "LOG_LEVEL" TStr (Some (PStr "INFO"));
   mkField "LOG_FORMAT" TStr
     (Some (PStr "%(asctime)s - %(name)s - %(levelname)s - %(message)s"));
   mkField "WORKER_PROCESSES" TInt (Some (PInt 1));
   mkField "KEEP_ALIVE" TInt (Some (PInt 2));
   mkField "ENABLE_WEB_SEARCH" TBool (Some (PBool true));
   mkField "ENABLE_CODE_EXECUTION" TBool (Some (PBool false));
   mkField "ENABLE_FILE_OPERATIONS" TBool (Some (PBool true));
   mkField "SERPER_API_KEY" TOptionalStr (Some (PNone));
   mkField "SERPAPI_API_KEY" TOptionalStr (Some (PNone));
   mkField "PLAYWRIGHT_ENABLED" TBool (Some (PBool false));
   mkField "HUGGING_FACE_API_KEY" TOptionalStr (Some (PNone));
   mkField "COHERE_API_KEY" TOptionalStr (Some (PNone));
   mkField "MODEL_TEMPERATURE" TFloat
     (Some (PFloat 0x1.6666666666666p-1%float));
   mkField "MODEL_MAX_TOKENS" TInt (Some (PInt 4000));
   mkField "MODEL_TOP_P" TFloat (Some (PFloat 1%float));
   mkField "MODEL_FREQUENCY_PENALTY" TFloat (Some (PFloat 0%float));
   mkField "MODEL_PRESENCE_PENALTY" TFloat (Some (PFloat 0%float));
   mkField "EMBEDDING_MODEL" TStr (Some (PStr "text-embedding-ada-002"));
   mkField "EMBEDDING_CHUNK_SIZE" TInt (Some (PInt 1000));
   mkField "EMBEDDING_CHUNK_OVERLAP" TInt (Some (PInt 200));
   mkField "BCRYPT_ROUNDS" TInt (Some (PInt 12));
   mkField "PASSWORD_MIN_LENGTH" TInt (Some (PInt 8));
   mkField "SESSION_COOKIE_NAME" TStr (Some (PStr "session"));
   mkField "SESSION_COOKIE_HTTPONLY" TBool (Some (PBool true));
   mkField "SESSION_COOKIE_SECURE" TBool (Some (PBool true));
   mkField "CORS_ALLOW_CREDENTIALS" TBool (Some (PBool true));
   mkField "CORS_ALLOW_METHODS" TListStr (Some (PList [PStr "*"]));
   mkField "CORS_ALLOW_HEADERS" TListStr (Some (PList [PStr "*"]));
   mkField "RELOAD_ON_CHANGE" TBool (Some (PBool false));
   mkField "AUTO_RELOAD" TBool (Some (PBool false));
   mkField "ENABLE_METRICS" TBool (Some (PBool true));
   mkField "METRICS_PORT" TInt (Some (PInt 9090));
   mkField "HEALTH_CHECK_INTERVAL" TInt (Some (PInt 60));
   mkField "BACKUP_ENABLED" TBool (Some (PBool false));
   mkField "BACKUP_INTERVAL" TInt (Some (PInt 86400));
   mkField "BACKUP_RETENTION" TInt (Some (PInt 7));
   mkField "FEATURE_MARKETPLACE" TBool (Some (PBool true));
   mkField "FEATURE_TEAM_COLLABORATION" TBool (Some (PBool true));
   mkField "FEATURE_ADVANCED_ANALYTICS" TBool (Some (PBool true));
   mkField "FEATURE_CUSTOM_MODELS" TBool (Some (PBool false));
   mkField "HTTP_TIMEOUT" TInt (Some (PInt 30));
   mkField "LLM_TIMEOUT" TInt (Some (PInt 120));
   mkField "WEBSOCKET_TIMEOUT" TInt (Some (PInt 300));
   mkField "QUEUE_MAX_SIZE" TInt (Some (PInt 1000));
   mkField "QUEUE_TIMEOUT" TInt (Some (PInt 60));
   mkField "CACHE_TTL" TInt (Some (PInt 3600));
   mkField "CACHE_MAX_SIZE" TInt (Some (PInt 1000))
  ].

(** The [@validator(name, pre=True)] methods of the class. *)
Definition pre_validator (name : string) : pyval -> pyval :=
  if String.eqb name "ALLOWED_ORIGINS" then parse_cors_origins
  else if String.eqb name "CORS_ALLOW_METHODS" then parse_cors_methods
  else if String.eqb name "CORS_ALLOW_HEADERS" then parse_cors_headers
  else fun v => v.

Definition is_complex (t : field_type) : bool :=
  match t with TListStr => true | _ => false end.

Inductive settings_result : Type :=
| SettingsOk (values : gmap string pyval)
| SettingsError (field : string)                 (* error parsing JSON *)
| SettingsInvalid (errors : list field_error).   (* ValidationError *)

Section SettingsModel.
Variable json_loads : string -> option pyval.
Variable type_validator : field_type -> pyval -> option pyval.

(** What the environment gives for a field: nothing, or the value that
    goes to validation; [inl] when the JSON of a [List] field is bad. *)
Definition source_value (env : gmap string string) (f : settings_field)
  : string + option pyval :=
  match env !! field_name f with
  | None => inr None
  | Some raw =>
      if is_complex (field_type_of f)
      then match json_loads raw with
           | Some x => inr (Some x)
           | None => inl (field_name f)
           end
      else inr (Some (PStr raw))
  end.

Fixpoint env_source (env : gmap string string) (fields : list settings_field)
  : string + list (settings_field * option pyval) :=
  match fields with
  | [] => inr []
  | f :: rest =>
      match source_value env f with
      | inl bad => inl bad
      | inr v =>
          match env_source env rest with
          | inl bad => inl bad
          | inr vs => inr ((f, v) :: vs)
          end
      end
  end.

Definition validate_field (f : settings_field) (v : option pyval)
  : field_error + pyval :=
  match v with
  | None =>
      match field_default f with
      | Some d => inr d
      | None => inl (FieldRequired (field_name f))
      end
  | Some x =>
      match type_validator (field_type_of f) (pre_validator (field_name f) x) with
      | Some y => inr y
      | None => inl (FieldInvalid (field_name f))
      end
  end.

Fixpoint validate_fields (vs : list (settings_field * option pyval))
  : list field_error * gmap string pyval :=
  match vs with
  | [] => ([], ∅)
  | (f, v) :: rest =>
      let (errs, m) := validate_fields rest in
      match validate_field f v with
      | inl e => (e :: errs, m)
      | inr y => (errs, <[field_name f := y]> m)
      end
  end.

(** [Settings()] *)
Definition Settings_construct (env : gmap string string) : settings_result :=
  match env_source env Settings_fields with
  | inl bad => SettingsError bad
  | inr vs =>
      match validate_fields vs with
      | ([], m) => SettingsOk m
      | (errs, _) => SettingsInvalid errs
      end
  end.

End SettingsModel.

(** ** What a request is answered with

    A route that returns is answered with its value.  An [HTTPException]
    is answered by the framework with its status code and
    [{"detail": ..}].  Any other exception reaches
    [global_exception_handler], which [main.py] registers for
    [Exception]. *)

Record JSONResponse : Type := mkJSONResponse {
  response_status : Z;
  response_content : pyval;
}.

Section Responses.
Context {B : Backend}.

Definition global_exception_handler (exc : exn) : M JSONResponse :=
  logger_error "Global exception: " exc ;;;
  ret (mkJSONResponse 500
         (PDict {[ "message" := PStr "Internal server error";
                   "detail" := PStr (py_str exc) ]})).

Definition respond (route : M pyval) : M JSONResponse :=
  fun w =>
    match route w with
    | (Ok v, w') => (Ok (mkJSONResponse 200 v), w')
    | (Raise (HTTPException code detail), w') =>
        (Ok (mkJSONResponse code (PDict {[ "detail" := PStr detail ]})), w')
    | (Raise e, w') => global_exception_handler e w'
    | (Pending, w') => (Pending, w')
    end.

End Responses.

(** ** A scripted backend

    A concrete set of collaborators on which the handlers can be run: the
    state is the queue of inbound socket frames still to come, and the
    socket reports a disconnect once the queue is empty. *)

Definition demo_verify_token (t : string) : outcome pyval :=
  if String.eqb t "good" then Returns (PDict {[ "sub" := PStr "alice" ]})
  else if String.eqb t "anon" then Returns (PDict {[ "sub" := PStr "" ]})
  else Raises (PyException "JWTError" "Signature verification failed").

Definition demo_health (s : service) : outcome bool :=
  match s with
  | AgentSvc => Returns true
  | VectorSvc => Raises (PyException "ConnectionError" "vector store unreachable")
  | LLMSvc => Returns false
  end.

Definition demo_str (e : exn) : string :=
  match e with
  | HTTPException _ d => d
  | WebSocketDisconnect _ => ""
  | AttributeError m => m
  | PyException _ m => m
  end.

Definition demo_receive (q : list (outcome pyval))
  : outcome pyval * list (outcome pyval) :=
  match q with
  | [] => (Raises (WebSocketDisconnect 1000), [])
  | f :: q' => (f, q')
  end.

Definition demo_create (nm : string) : outcome pyval :=
  if String.eqb nm "dup"
  then Raises (PyException "IntegrityError" "duplicate agent name")
  else Returns (PStr nm).

#[local] Instance demo : Backend := {|
  ext := list (outcome pyval);
  py_str := demo_str;
  verify_token := fun t q => (demo_verify_token t, q);
  svc_health_check := fun s q => (demo_health s, q);
  utcnow_isoformat := fun q => ("2024-01-01T00:00:00", q);
  ws_close := fun _ _ _ q => (Returns tt, q);
  ws_receive_json := fun _ q => demo_receive q;
  ws_send_json := fun _ _ q => (Returns tt, q);
  cm_connect := fun _ _ q => (Returns tt, q);
  cm_disconnect := fun _ q => (Returns tt, q);
  ws_process_message := fun _ _ msg _ _ q => (Returns (PDict {[ "response" := msg ]}), q);
  get_db := fun q => (Returns 7%nat, q);
  svc_create_agent := fun _ nm _ _ _ _ _ _ q => (demo_create nm, q);
  svc_get_user_agents := fun _ _ q => (Returns (PList []), q);
  svc_chat_with_agent := fun _ _ msg _ _ _ q => (Returns (PStr msg), q);
|}.

Definition demo_ext (q : list (outcome pyval)) : @ext demo := q.
Definition demo_world (q : list (outcome pyval)) : @world demo :=
  World (demo_ext q) [].

(** Type validators that accept a value of the declared type only. *)
Definition strict_str (x : pyval) : option string :=
  match x with PStr s => Some s | _ => None end.
Definition strict_bool (x : pyval) : option bool :=
  match x with PBool b => Some b | _ => None end.
Definition strict_list_str (x : pyval) : option (list string) :=
  match x with PList l => mapM strict_str l | _ => None end.
Definition strict_dict (x : pyval) : option (gmap string pyval) :=
  match x with PDict d => Some d | _ => None end.

(** A settings constructor that knows the three required variables of
    [Settings] and nothing else. *)
Record demo_Settings : Type := mkDemoSettings {
  DATABASE_URL : string;
  SECRET_KEY : string;
  OPENAI_API_KEY : string;
}.

Definition demo_Settings_init (env : gmap string string) : outcome demo_Settings :=
  match env !! "DATABASE_URL", env !! "SECRET_KEY", env !! "OPENAI_API_KEY" with
  | Some u, Some k, Some o => Returns (mkDemoSettings u k o)
  | _, _, _ => Raises (PyException "ValidationError" "field required")
  end.

Definition demo_environ : gmap string string :=
  {[ "DATABASE_URL" := "postgresql://db/agents";
     "SECRET_KEY" := "s3cr3t";
     "OPENAI_API_KEY" := "sk-test" ]}.

(** To run the constructor: type validators that accept a value of the
    declared type, and a JSON decoder that knows string literals without
    escapes. *)
Definition strict_type_validator (t : field_type) (v : pyval) : option pyval :=
  match t, v with
  | TStr, PStr _ | TOptionalStr, PStr _ | TOptionalStr, PNone => Some v
  | TBool, PBool _ | TInt, PInt _ | TFloat, PFloat _ => Some v
  | TListStr, PList l => PList <$> mapM (fun x => PStr <$> strict_str x) l
  | _, _ => None
  end.

Definition demo_json_loads (raw : string) : option pyval :=
  match raw with
  | String c rest =>
      if Ascii.eqb c "034"%char
      then match str_split "034"%char rest with
           | [body; EmptyString] => Some (PStr body)
           | _ => None
           end
      else None
  | EmptyString => None
  end.

(** A second scripted backend, in which the token ["list"] verifies to a
    payload that is no dict, and [connect] and [get_db] raise. *)
Definition faulty_verify_token (t : string) : outcome pyval :=
  if String.eqb t "list" then Returns (PList [])
  else Returns (PDict {[ "sub" := PStr "bob" ]}).

#[local] Instance demo_faulty : Backend := {|
  ext := list (outcome pyval);
  py_str := demo_str;
  verify_token := fun t q => (faulty_verify_token t, q);
  svc_health_check := fun s q => (demo_health s, q);
  utcnow_isoformat := fun q => ("2024-01-01T00:00:00", q);
  ws_close := fun _ _ _ q => (Returns tt, q);
  ws_receive_json := fun _ q => demo_receive q;
  ws_send_json := fun _ _ q => (Returns tt, q);
  cm_connect := fun _ _ q => (Raises (PyException "RuntimeError" "not accepted"), q);
  cm_disconnect := fun _ q => (Returns tt, q);
  ws_process_message := fun _ _ msg _ _ q => (Returns msg, q);
  get_db := fun q => (Raises (PyException "OperationalError" "database is down"), q);
  svc_create_agent := fun _ nm _ _ _ _ _ _ q => (demo_create nm, q);
  svc_get_user_agents := fun _ _ q => (Returns (PList []), q);
  svc_chat_with_agent := fun _ _ msg _ _ _ q => (Returns (PStr msg), q);
|}.

Definition faulty_ext (q : list (outcome pyval)) : @ext demo_faulty := q.
Definition faulty_world (q : list (outcome pyval)) : @world demo_faulty :=
  World (faulty_ext q) [].

(** The settings built from [demo_environ], and from it with
    [ALLOWED_ORIGINS] set to a JSON string. *)
Definition settings_values (env : gmap string string) : gmap string pyval :=
  match Settings_construct demo_json_loads strict_type_validator env with
  | SettingsOk values => values
  | _ => ∅
  end.

Definition demo_origins : string := "http://a.example, https://b.example".

Definition demo_cors_environ : gmap string string :=
  <[ "ALLOWED_ORIGINS" :=
       String "034"%char (demo_origins ++ String "034"%char EmptyString) ]>
    demo_environ.

(** * Properties *)

(** ** [GET /health] *)

Section HealthFacts.
Context {B : Backend}.

(** Sequencing after a computation whose run is known. *)
Lemma bind_Ok {A C} (m : M A) (k : A -> M C) (w w' : world) (a : A) :
  m w = (Ok a, w') -> bind m k w = k a w'.
Proof. intros H. unfold bind. now rewrite H. Qed.

Lemma bind_Raise {A C} (m : M A) (k : A -> M C) (w w' : world) (e : exn) :
  m w = (Raise e, w') -> bind m k w = (Raise e, w').
Proof. intros H. unfold bind. now rewrite H. Qed.

Lemma bind_Pending {A C} (m : M A) (k : A -> M C) (w w' : world) :
  m w = (Pending, w') -> bind m k w = (Pending, w').
Proof. intros H. unfold bind. now rewrite H. Qed.

(** A probe inside its [try/except] returns its flag and never raises. *)
Lemma probe_guarded (s : service) (prefix : string) (w : world) :
  exists tr,
    try_except (call (EvHealthCheck s) (svc_health_check s))
      (fun e => logger_error prefix e ;;; ret false) w
    = (Ok (probe_flag (fst (svc_health_check s (w_ext w)))),
       World (snd (svc_health_check s (w_ext w))) (w_trace w ++ tr)).
Proof.
  unfold try_except, call.
  destruct (svc_health_check s (w_ext w)) as [[b|e] s'] eqn:E; cbn.
  - exists [EvHealthCheck s]. reflexivity.
  - exists [EvHealthCheck s; EvLog ERROR prefix (LogExn e)].
    unfold bind, logger_error, emit, ret; cbn. now rewrite <- app_assoc.
Qed.

Lemma health_check_run (w : world) :
  let p1 := svc_health_check AgentSvc (w_ext w) in
  let p2 := svc_health_check VectorSvc (snd p1) in
  let p3 := svc_health_check LLMSvc (snd p2) in
  let now := utcnow_isoformat (snd p3) in
  exists tr,
    health_check w =
      (Ok (HealthResponse_init (fst now) (probe_flag (fst p1))
             (probe_flag (fst p2)) (probe_flag (fst p3))),
       World (snd now) (w_trace w ++ tr)).
Proof.
  cbv zeta. unfold health_check.
  destruct (probe_guarded AgentSvc "Database health check failed: " w) as [t1 H1].
  rewrite (bind_Ok _ _ _ _ _ H1). clear H1.
  match goal with |- context [bind _ _ ?w1] =>
    destruct (probe_guarded VectorSvc "Vector database health check failed: " w1)
      as [t2 H2] end.
  rewrite (bind_Ok _ _ _ _ _ H2). clear H2.
  match goal with |- context [bind _ _ ?w2] =>
    destruct (probe_guarded LLMSvc "LLM service health check failed: " w2)
      as [t3 H3] end.
  rewrite (bind_Ok _ _ _ _ _ H3). clear H3.
  cbn [w_ext w_trace].
  unfold bind, utcnow, ret. cbn [w_ext w_trace].
  match goal with |- context [utcnow_isoformat ?s] =>
    destruct (utcnow_isoformat s) as [t s'] end.
  cbn [fst snd].
  exists (t1 ++ t2 ++ t3 ++ [EvUtcNow])%list. now rewrite !app_assoc.
Qed.

(** C1: whatever the three probes do, [health_check] returns a response
    and does not raise; a probe that returns a boolean puts that boolean in
    its field ([database], [vector_db], [llm_service]), and a probe that
    raises puts [False] there. *)
Theorem health_check_reflects_probes (w : world) :
  let p1 := svc_health_check AgentSvc (w_ext w) in
  let p2 := svc_health_check VectorSvc (snd p1) in
  let p3 := svc_health_check LLMSvc (snd p2) in
  exists r w',
    health_check w = (Ok r, w') /\
    database r = match fst p1 with Returns b => b | Raises _ => false end /\
    vector_db r = match fst p2 with Returns b => b | Raises _ => false end /\
    llm_service r = match fst p3 with Returns b => b | Raises _ => false end.
Proof.
  intros p1 p2 p3. destruct (health_check_run w) as [tr H].
  eexists _, _. split; [exact H|]. cbn. repeat split.
Qed.

(** C10: the response of [health_check] always has [status = "healthy"]
    and [version = "1.0.0"], whatever the probes did. *)
Theorem health_check_status_version (w : world) :
  exists r w',
    health_check w = (Ok r, w') /\
    status r = "healthy" /\ version r = "1.0.0".
Proof.
  destruct (health_check_run w) as [tr H].
  eexists _, _. split; [exact H|]. split; reflexivity.
Qed.

End HealthFacts.

(** ** [/ws/chat/{agent_id}] *)

Section WebSocketFacts.
Context {B : Backend}.

Lemma call_run {A} (ev : event) (op : ext -> outcome A * ext) (w : world) :
  call ev op w =
    (to_res (fst (op (w_ext w))),
     World (snd (op (w_ext w))) (w_trace w ++ [ev])).
Proof.
  unfold call. destruct (op (w_ext w)) as [[a|e] s]; reflexivity.
Qed.

Lemma call_Returns {A} (ev : event) (op : ext -> outcome A * ext) w a s :
  op (w_ext w) = (Returns a, s) ->
  call ev op w = (Ok a, World s (w_trace w ++ [ev])).
Proof. intros H. rewrite call_run, H. reflexivity. Qed.

Lemma call_Raises {A} (ev : event) (op : ext -> outcome A * ext) w e s :
  op (w_ext w) = (Raises e, s) ->
  call ev op w = (Raise e, World s (w_trace w ++ [ev])).
Proof. intros H. rewrite call_run, H. reflexivity. Qed.

(** C2: with a non-empty token that [verify_token] rejects by raising,
    the handler logs, calls [websocket.close(code=4001)] and is done: these
    are all the calls it makes (no [connect], no [receive_json]), and it
    returns as soon as the close call has. *)
Theorem websocket_chat_rejects_bad_token
    (fuel : nat) (ws : websocket) (agent t : string) (w : world)
    (e : exn) (s : ext) :
  t <> "" ->
  verify_token t (w_ext w) = (Raises e, s) ->
  websocket_chat fuel ws agent (Some t) w =
    (to_res (fst (ws_close ws 4001 "Authentication failed" s)),
     World (snd (ws_close ws 4001 "Authentication failed" s))
       (w_trace w ++
        [EvVerifyToken t;
         EvLog ERROR "WebSocket authentication failed: " (LogExn e);
         EvClose ws 4001 "Authentication failed"])).
Proof.
  intros Ht Hv. unfold websocket_chat, ws_authenticate.
  assert (truthy (PStr t) = true) as ->.
  { cbn. destruct (String.eqb_spec t ""); [contradiction|reflexivity]. }
  unfold bind at 1. unfold try_except.
  rewrite (bind_Raise _ _ _ _ _ (call_Raises _ _ _ _ _ Hv)).
  unfold logger_error, emit, bind. cbn [w_ext w_trace].
  rewrite call_run. cbn [w_ext w_trace].
  destruct (ws_close ws 4001 "Authentication failed" s) as [[[]|e'] s'];
    cbn; unfold ret; now rewrite <- !app_assoc.
Qed.

(** One pass of the loop, by the outcome of each of its calls. *)
Lemma receive_step_run (ws : websocket) (agent : string) (user_id : pyval)
    (w : world) :
  receive_step ws agent user_id w =
    let tr0 := (w_trace w ++ [EvReceiveJson ws])%list in
    match ws_receive_json ws (w_ext w) with
    | (Raises e, s1) => (Raise e, World s1 tr0)
    | (Returns data, s1) =>
        match data with
        | PDict d =>
            let msg := default (PStr "") (d !! "message") in
            let conv := default PNone (d !! "conversation_id") in
            let tr1 := (tr0 ++ [EvProcessMessage agent user_id msg conv ws])%list in
            match ws_process_message agent user_id msg conv ws s1 with
            | (Raises e, s2) => (Raise e, World s2 tr1)
            | (Returns r, s2) =>
                (to_res (fst (ws_send_json ws r s2)),
                 World (snd (ws_send_json ws r s2)) (tr1 ++ [EvSendJson ws r]))
            end
        | _ => (Raise (no_attribute data "get"), World s1 tr0)
        end
    end.
Proof.
  unfold receive_step. unfold bind at 1. rewrite call_run. cbn [w_ext w_trace].
  destruct (ws_receive_json ws (w_ext w)) as [[data|e] s1]; cbn [to_res fst snd];
    [|reflexivity].
  destruct data; try reflexivity.
  cbn [py_get of_outcome]. unfold bind at 1. unfold ret at 1.
  unfold bind at 1. unfold ret at 1.
  unfold bind at 1. rewrite call_run. cbn [w_ext w_trace].
  destruct (ws_process_message _ _ _ _ _ s1) as [[r|e] s2]; cbn [to_res fst snd];
    [|reflexivity].
  now rewrite call_run.
Qed.

(** One pass, once a JSON object [d] has been received: the arguments of
    [process_message] and what is passed to [send_json]. *)
Lemma receive_step_forwards
    (ws : websocket) (agent : string) (user_id : pyval) (w : world)
    (d : gmap string pyval) (s1 : ext) :
  ws_receive_json ws (w_ext w) = (Returns (PDict d), s1) ->
  let msg := default (PStr "") (d !! "message") in
  let conv := default PNone (d !! "conversation_id") in
  let called := EvProcessMessage agent user_id msg conv ws in
  (forall m, d !! "message" = Some m -> msg = m) /\
  (forall c, d !! "conversation_id" = Some c -> conv = c) /\
  match ws_process_message agent user_id msg conv ws s1 with
  | (Returns r, s2) =>
      receive_step ws agent user_id w =
        (to_res (fst (ws_send_json ws r s2)),
         World (snd (ws_send_json ws r s2))
           (w_trace w ++ [EvReceiveJson ws; called; EvSendJson ws r]))
  | (Raises e, s2) =>
      receive_step ws agent user_id w =
        (Raise e, World s2 (w_trace w ++ [EvReceiveJson ws; called]))
  end.
Proof.
  intros Hr msg conv called.
  split; [intros m Hm; subst msg; now rewrite Hm|].
  split; [intros c Hc; subst conv; now rewrite Hc|].
  rewrite receive_step_run, Hr. cbv zeta. fold msg conv.
  destruct (ws_process_message agent user_id msg conv ws s1) as [[r|e] s2];
    now rewrite <- !app_assoc.
Qed.

(** The calls of a pass are calls of the session. *)
Lemma receive_step_events (ws : websocket) (agent : string) (user_id : pyval)
    (w : world) :
  exists tr,
    w_trace (snd (receive_step ws agent user_id w))
      = (w_trace w ++ EvReceiveJson ws :: tr)%list /\
    Forall (session_event ws agent user_id) tr.
Proof.
  rewrite receive_step_run. cbv zeta.
  destruct (ws_receive_json ws (w_ext w)) as [[data|e] s1].
  2:{ exists []. split; [reflexivity|constructor]. }
  destruct data; try (exists []; split; [reflexivity|constructor]).
  destruct (ws_process_message _ _ _ _ _ s1) as [[r|e] s2]; cbn [snd w_trace].
  - eexists [_; _]. split; [now rewrite <- !app_assoc|].
    repeat constructor.
  - eexists [_]. split; [now rewrite <- !app_assoc|].
    repeat constructor.
Qed.

(** The loop never returns: it is still running or it has raised. *)
Lemma receive_loop_no_return (fuel : nat) ws agent user_id (w : world) (u : unit) :
  fst (receive_loop fuel ws agent user_id w) <> Ok u.
Proof.
  revert w. induction fuel as [|n IH]; intros w; cbn [receive_loop].
  - discriminate.
  - unfold bind.
    destruct (receive_step ws agent user_id w) as [[[]|e|] w1]; cbn;
      [apply IH|discriminate|discriminate].
Qed.

(** An exception ends the loop for good: more fuel changes nothing. *)
Lemma receive_loop_raise_mono (fuel fuel' : nat) ws agent user_id
    (w w1 : world) (e : exn) :
  (fuel <= fuel')%nat ->
  receive_loop fuel ws agent user_id w = (Raise e, w1) ->
  receive_loop fuel' ws agent user_id w = (Raise e, w1).
Proof.
  revert fuel' w. induction fuel as [|n IH]; intros fuel' w Hle H.
  - discriminate.
  - destruct fuel' as [|n']; [lia|]. cbn [receive_loop] in *.
    unfold bind in *.
    destruct (receive_step ws agent user_id w) as [[[]|e0|] w0];
      [apply IH; [lia|exact H]|exact H|discriminate].
Qed.

Lemma receive_loop_events (fuel : nat) ws agent user_id (w : world) :
  exists tr,
    w_trace (snd (receive_loop fuel ws agent user_id w)) = (w_trace w ++ tr)%list /\
    Forall (session_event ws agent user_id) tr /\
    (forall n, fuel = S n -> exists tr', tr = EvReceiveJson ws :: tr').
Proof.
  revert w. induction fuel as [|n IH]; intros w; cbn [receive_loop].
  - exists []. cbn. rewrite app_nil_r. repeat split; [constructor|discriminate].
  - destruct (receive_step_events ws agent user_id w) as (tr1 & E1 & F1).
    unfold bind.
    destruct (receive_step ws agent user_id w) as [[[]|e|] w1]; cbn [snd] in *.
    + destruct (IH w1) as (tr2 & E2 & F2 & _).
      exists (EvReceiveJson ws :: tr1 ++ tr2)%list. rewrite E2, E1.
      split; [now rewrite <- app_assoc|].
      split; [constructor; [reflexivity|now apply Forall_app]|eauto].
    + exists (EvReceiveJson ws :: tr1). split; [exact E1|].
      split; [constructor; [reflexivity|exact F1]|eauto].
    + exists (EvReceiveJson ws :: tr1). split; [exact E1|].
      split; [constructor; [reflexivity|exact F1]|eauto].
Qed.

(** The session once its loop has raised [e] in world [w1]. *)
Lemma chat_session_after_raise (fuel : nat) ws agent user_id
    (w w1 : world) (e : exn) :
  receive_loop fuel ws agent user_id w = (Raise e, w1) ->
  chat_session fuel ws agent user_id w =
    if is_WebSocketDisconnect e
    then
      let gone := cm_disconnect ws (w_ext w1) in
      (to_res (fst gone),
       World (snd gone)
         (w_trace w1 ++
          [EvLog INFO "WebSocket disconnected for user " (LogVal user_id);
           EvDisconnect ws]))
    else
      let closed := ws_close ws 4000 "Internal server error" (w_ext w1) in
      let gone := cm_disconnect ws (snd closed) in
      (match fst gone with
       | Raises e' => Raise e'
       | Returns _ => to_res (fst closed)
       end,
       World (snd gone)
         (w_trace w1 ++
          [EvLog ERROR "WebSocket error: " (LogExn e);
           EvClose ws 4000 "Internal server error";
           EvDisconnect ws])).
Proof.
  intros H. unfold chat_session, try_finally, try_except. rewrite H.
  destruct (is_WebSocketDisconnect e).
  - unfold logger_info, emit. cbn [w_ext w_trace]. rewrite call_run.
    cbn [w_ext w_trace].
    destruct (cm_disconnect ws (w_ext w1)) as [[[]|e'] s']; cbn;
      now rewrite <- !app_assoc.
  - unfold logger_error, emit, bind. cbn [w_ext w_trace]. rewrite call_run.
    cbn [w_ext w_trace].
    destruct (ws_close ws 4000 "Internal server error" (w_ext w1))
      as [[[]|e1] s1]; cbn [to_res fst snd]; rewrite call_run;
      cbn [w_ext w_trace];
      destruct (cm_disconnect ws s1) as [[[]|e2] s2]; cbn;
      now rewrite <- !app_assoc.
Qed.

(** C6: when the receive loop raises [e], the session ends as follows,
    however much longer the loop would have been followed.  If [e] is a
    [WebSocketDisconnect], the handler logs it and calls
    [connection_manager.disconnect]: no close call.  For any other [e] it
    logs, calls [websocket.close(code=4000)] and then
    [connection_manager.disconnect].  In both cases the disconnect call is
    the last call made before the handler is left. *)
Theorem chat_session_teardown (fuel fuel' : nat) ws agent user_id
    (w w1 : world) (e : exn) :
  (fuel <= fuel')%nat ->
  receive_loop fuel ws agent user_id w = (Raise e, w1) ->
  chat_session fuel' ws agent user_id w =
    if is_WebSocketDisconnect e
    then
      let gone := cm_disconnect ws (w_ext w1) in
      (to_res (fst gone),
       World (snd gone)
         (w_trace w1 ++
          [EvLog INFO "WebSocket disconnected for user " (LogVal user_id);
           EvDisconnect ws]))
    else
      let closed := ws_close ws 4000 "Internal server error" (w_ext w1) in
      let gone := cm_disconnect ws (snd closed) in
      (match fst gone with
       | Raises e' => Raise e'
       | Returns _ => to_res (fst closed)
       end,
       World (snd gone)
         (w_trace w1 ++
          [EvLog ERROR "WebSocket error: " (LogExn e);
           EvClose ws 4000 "Internal server error";
           EvDisconnect ws])).
Proof.
  intros Hle H. apply chat_session_after_raise.
  exact (receive_loop_raise_mono _ _ _ _ _ _ _ _ Hle H).
Qed.

Lemma chat_session_events (fuel : nat) ws agent user_id (w : world) :
  exists tr,
    w_trace (snd (chat_session fuel ws agent user_id w)) = (w_trace w ++ tr)%list /\
    Forall (session_event ws agent user_id) tr /\
    (forall n, fuel = S n -> exists tr', tr = EvReceiveJson ws :: tr').
Proof.
  destruct (receive_loop_events fuel ws agent user_id w) as (tr & E & F & Hd).
  destruct (receive_loop fuel ws agent user_id w) as [[u|e|] w1] eqn:L;
    cbn [snd] in E.
  - exfalso. eapply receive_loop_no_return. rewrite L. reflexivity.
  - rewrite (chat_session_after_raise _ _ _ _ _ _ _ L).
    destruct (is_WebSocketDisconnect e); cbv zeta; cbn [snd w_trace]; rewrite E.
    + eexists. split; [now rewrite <- app_assoc|]. split.
      * apply Forall_app. split; [exact F|]. repeat constructor.
      * intros n Hn. destruct (Hd n Hn) as [tr' ->]. eauto.
    + eexists. split; [now rewrite <- app_assoc|]. split.
      * apply Forall_app. split; [exact F|]. repeat constructor.
      * intros n Hn. destruct (Hd n Hn) as [tr' ->]. eauto.
  - unfold chat_session, try_finally, try_except. rewrite L. cbn [snd].
    exists tr. auto.
Qed.

(** C9: when the [token] query parameter is absent or empty, the handler
    verifies nothing: it calls [connection_manager.connect(websocket, None)]
    first and goes on into the session with [user_id = None]; none of its
    calls is a [verify_token], every [process_message] carries
    [user_id = None], and once [connect] has returned the next call is the
    [receive_json] of the loop. *)
Theorem websocket_chat_admits_anonymous
    (fuel : nat) (ws : websocket) (agent : string) (token : option string)
    (w : world) :
  token_given token = false ->
  websocket_chat fuel ws agent token w =
    (call (EvConnect ws PNone) (cm_connect ws PNone) ;;;
     chat_session fuel ws agent PNone) w /\
  exists tr,
    w_trace (snd (websocket_chat fuel ws agent token w))
      = (w_trace w ++ EvConnect ws PNone :: tr)%list /\
    Forall (session_event ws agent PNone) tr /\
    (forall t, ~ In (EvVerifyToken t) tr) /\
    (forall s n, cm_connect ws PNone (w_ext w) = (Returns tt, s) ->
                 fuel = S n ->
                 exists tr', tr = EvReceiveJson ws :: tr').
Proof.
  intros Ht.
  assert (ws_authenticate ws token = ret (Some PNone)) as Ha.
  { unfold ws_authenticate. destruct token as [t|]; [|reflexivity].
    cbn [token_given] in Ht. now rewrite Ht. }
  assert (websocket_chat fuel ws agent token w =
          (call (EvConnect ws PNone) (cm_connect ws PNone) ;;;
           chat_session fuel ws agent PNone) w) as Heq.
  { unfold websocket_chat. rewrite Ha. reflexivity. }
  split; [exact Heq|]. rewrite Heq. unfold bind at 1. rewrite call_run.
  destruct (cm_connect ws PNone (w_ext w)) as [[[]|e] s1] eqn:C;
    cbn [to_res fst snd w_trace].
  - destruct (chat_session_events fuel ws agent PNone
                (World s1 (w_trace w ++ [EvConnect ws PNone])))
      as (tr & E & F & Hd).
    exists tr. rewrite E. cbn [w_trace]. split; [now rewrite <- app_assoc|].
    split; [exact F|]. split.
    + intros t Hin. rewrite List.Forall_forall in F. exact (F _ Hin).
    + intros s n _ Hn. exact (Hd n Hn).
  - exists []. split; [reflexivity|]. split; [constructor|].
    split; [intros t []|]. intros s n Hs. discriminate.
Qed.

(** With a token that verifies to the payload [d], the session runs for
    the user [d.get("sub")]. *)
Lemma websocket_chat_authenticated (fuel : nat) (ws : websocket)
    (agent t : string) (w : world) (d : gmap string pyval) (s : ext) :
  t <> "" ->
  verify_token t (w_ext w) = (Returns (PDict d), s) ->
  websocket_chat fuel ws agent (Some t) w =
    (call (EvConnect ws (default PNone (d !! "sub")))
          (cm_connect ws (default PNone (d !! "sub"))) ;;;
     chat_session fuel ws agent (default PNone (d !! "sub")))
      (World s (w_trace w ++ [EvVerifyToken t])).
Proof.
  intros Ht Hv. unfold websocket_chat, ws_authenticate.
  assert (truthy (PStr t) = true) as ->.
  { cbn. destruct (String.eqb_spec t ""); [contradiction|reflexivity]. }
  unfold bind at 1. unfold try_except.
  now rewrite (bind_Ok _ _ _ _ _ (call_Returns _ _ _ _ _ Hv)).
Qed.

(** C4: in the handler, every pass of the receive loop that receives the
    JSON object [d] calls [process_message] with the [agent_id] of the path,
    the [user_id] of the session, [message = d.get("message", "")] and
    [conversation_id = d.get("conversation_id")] (the entries of [d] when it
    has them), and calls [send_json] with the value [process_message]
    returned, as it is.  The loop and the session then go on from the world
    these three calls left, so the same holds of the next pass; a raising
    [process_message] or [send_json] ends the loop with that exception.
    The session of [websocket_chat] is this one, for the [agent_id] given
    and for the [user_id] of the verified payload ([None] without a
    token), started in the world [connect] left. *)
Theorem websocket_chat_forwards
    (fuel : nat) (ws : websocket) (agent : string) (user_id : pyval)
    (w : world) (d : gmap string pyval) (s1 : ext) :
  ws_receive_json ws (w_ext w) = (Returns (PDict d), s1) ->
  let msg := default (PStr "") (d !! "message") in
  let conv := default PNone (d !! "conversation_id") in
  let called := EvProcessMessage agent user_id msg conv ws in
  (forall m, d !! "message" = Some m -> msg = m) /\
  (forall c, d !! "conversation_id" = Some c -> conv = c) /\
  match ws_process_message agent user_id msg conv ws s1 with
  | (Raises e, s2) =>
      receive_loop (S fuel) ws agent user_id w
        = (Raise e, World s2 (w_trace w ++ [EvReceiveJson ws; called]))
  | (Returns response, s2) =>
      let w3 := World (snd (ws_send_json ws response s2))
                  (w_trace w ++
                   [EvReceiveJson ws; called; EvSendJson ws response]) in
      match fst (ws_send_json ws response s2) with
      | Returns _ =>
          receive_loop (S fuel) ws agent user_id w
            = receive_loop fuel ws agent user_id w3 /\
          chat_session (S fuel) ws agent user_id w
            = chat_session fuel ws agent user_id w3
      | Raises e =>
          receive_loop (S fuel) ws agent user_id w = (Raise e, w3)
      end
  end /\
  (forall n t wh payload sv sc,
     t <> "" ->
     verify_token t (w_ext wh) = (Returns (PDict payload), sv) ->
     user_id = default PNone (payload !! "sub") ->
     cm_connect ws user_id sv = (Returns tt, sc) ->
     w = World sc (w_trace wh ++ [EvVerifyToken t; EvConnect ws user_id]) ->
     websocket_chat n ws agent (Some t) wh = chat_session n ws agent user_id w) /\
  (forall n token wh sc,
     token_given token = false ->
     user_id = PNone ->
     cm_connect ws PNone (w_ext wh) = (Returns tt, sc) ->
     w = World sc (w_trace wh ++ [EvConnect ws PNone]) ->
     websocket_chat n ws agent token wh = chat_session n ws agent PNone w).
Proof.
  intros Hr msg conv called.
  split; [intros m Hm; subst msg; now rewrite Hm|].
  split; [intros c Hc; subst conv; now rewrite Hc|].
  split; [|split].
  - pose proof (receive_step_run ws agent user_id w) as Hs.
    rewrite Hr in Hs. cbv zeta in Hs. fold msg conv in Hs.
    destruct (ws_process_message agent user_id msg conv ws s1) as [[r|e] s2].
    + cbv zeta.
      destruct (ws_send_json ws r s2) as [[[]|e] s3]; cbn [to_res fst snd] in *;
        rewrite <- !app_assoc in Hs; cbn [app] in Hs.
      * assert (receive_loop (S fuel) ws agent user_id w
                = receive_loop fuel ws agent user_id
                    (World s3 (w_trace w ++
                               [EvReceiveJson ws; called; EvSendJson ws r])))
          as Hl by (cbn [receive_loop]; now rewrite (bind_Ok _ _ _ _ _ Hs)).
        split; [exact Hl|].
        unfold chat_session, try_finally, try_except. now rewrite Hl.
      * cbn [receive_loop]. now rewrite (bind_Raise _ _ _ _ _ Hs).
    + rewrite <- !app_assoc in Hs. cbn [app] in Hs.
      cbn [receive_loop]. now rewrite (bind_Raise _ _ _ _ _ Hs).
  - intros n t wh payload sv sc Ht Hv -> Hc ->.
    rewrite (websocket_chat_authenticated _ _ _ _ _ _ _ Ht Hv).
    unfold bind at 1. rewrite call_run. cbn [w_ext w_trace]. rewrite Hc.
    cbn [to_res fst snd]. now rewrite <- app_assoc.
  - intros n token wh sc Ht -> Hc ->.
    assert (ws_authenticate ws token = ret (Some PNone)) as Ha.
    { unfold ws_authenticate. destruct token as [t|]; [|reflexivity].
      cbn [token_given] in Ht. now rewrite Ht. }
    unfold websocket_chat. rewrite Ha. unfold bind at 1. unfold ret at 1.
    unfold bind at 1. rewrite call_run. now rewrite Hc.
Qed.

End WebSocketFacts.

(** ** Authentication and the route handlers *)

Section HttpFacts.
Context {B : Backend}.

Lemma get_current_user_run (creds : HTTPAuthorizationCredentials) (w : world) :
  let tok := credentials creds in
  let tr0 := (w_trace w ++ [EvVerifyToken tok])%list in
  let reject (e : exn) (s : ext) : res pyval * world :=
    (Raise (HTTPException 401 "Authentication failed"),
     World s (tr0 ++ [EvLog ERROR "Authentication failed: " (LogExn e)])) in
  get_current_user creds w =
    match verify_token tok (w_ext w) with
    | (Raises e, s) => reject e s
    | (Returns (PDict d), s) =>
        if truthy (default PNone (d !! "sub"))
        then (Ok (default PNone (d !! "sub")), World s tr0)
        else reject (HTTPException 401 "Invalid token") s
    | (Returns p, s) => reject (no_attribute p "get") s
    end.
Proof.
  cbv zeta. unfold get_current_user, try_except. unfold bind at 1.
  rewrite call_run. cbn [w_ext w_trace].
  destruct (verify_token (credentials creds) (w_ext w)) as [[p|e] s];
    cbn [to_res fst snd]; [|reflexivity].
  destruct p; try reflexivity.
  cbn [py_get of_outcome]. unfold bind at 1. unfold ret at 1.
  destruct (truthy (default PNone (d !! "sub"))); reflexivity.
Qed.

(** C5: [get_current_user] raises [HTTPException(status_code=401)] when
    [verify_token] raises and when the payload has no truthy ["sub"]; the
    request then ends there, whatever handler stands behind the dependency
    (its body is not run: no call but [verify_token] is made).  Otherwise
    it returns the ["sub"] value of the payload. *)
Theorem get_current_user_401
    (creds : HTTPAuthorizationCredentials) (w : world)
    (o : outcome pyval) (s : ext) :
  verify_token (credentials creds) (w_ext w) = (o, s) ->
  ((forall d v, o = Returns (PDict d) -> d !! "sub" = Some v -> truthy v = false) ->
   exists e' w',
     w' = World s (w_trace w ++
                   [EvVerifyToken (credentials creds);
                    EvLog ERROR "Authentication failed: " (LogExn e')]) /\
     get_current_user creds w
       = (Raise (HTTPException 401 "Authentication failed"), w') /\
     forall A (handler : pyval -> db_session -> M A),
       with_dependencies handler creds w
         = (Raise (HTTPException 401 "Authentication failed"), w')) /\
  (forall d v, o = Returns (PDict d) -> d !! "sub" = Some v -> truthy v = true ->
   get_current_user creds w
     = (Ok v, World s (w_trace w ++ [EvVerifyToken (credentials creds)]))).
Proof.
  intros Hv. pose proof (get_current_user_run creds w) as R. cbv zeta in R.
  rewrite Hv in R. split.
  - intros Hno.
    assert (exists e', get_current_user creds w =
              (Raise (HTTPException 401 "Authentication failed"),
               World s (w_trace w ++
                        [EvVerifyToken (credentials creds);
                         EvLog ERROR "Authentication failed: " (LogExn e')])))
      as [e' He'].
    { destruct o as [p|e].
      - destruct p; try (eexists; rewrite R; now rewrite <- app_assoc).
        destruct (d !! "sub") as [v|] eqn:Es; rewrite ?Es in R;
          cbn [from_option id] in R.
        + rewrite (Hno d v eq_refl Es) in R.
          eexists; rewrite R; now rewrite <- app_assoc.
        + cbn [truthy] in R. eexists; rewrite R; now rewrite <- app_assoc.
      - eexists; rewrite R; now rewrite <- app_assoc. }
    exists e'. eexists. split; [reflexivity|]. split; [exact He'|].
    intros A handler. unfold with_dependencies.
    now rewrite (bind_Raise _ _ _ _ _ He').
  - intros d v -> Es Ht. rewrite Es in R. cbn [from_option id] in R.
    now rewrite Ht in R.
Qed.

(** The shape shared by the three handlers: one service call inside
    [try], the conversion to a 500 in [except Exception]. *)
Lemma guarded_call_run {A} (ev : event) (op : ext -> outcome A * ext)
    (f : A -> pyval) (prefix : string) (w : world) :
  try_except (a <- call ev op ;; ret (f a))
    (fun e => logger_error prefix e ;;; raise (HTTPException 500 (py_str e))) w
  = match op (w_ext w) with
    | (Returns a, s) => (Ok (f a), World s (w_trace w ++ [ev]))
    | (Raises e, s) =>
        (Raise (HTTPException 500 (py_str e)),
         World s (w_trace w ++ [ev; EvLog ERROR prefix (LogExn e)]))
    end.
Proof.
  unfold try_except. unfold bind at 1. rewrite call_run.
  destruct (op (w_ext w)) as [[a|e] s]; cbn [to_res fst snd]; [reflexivity|].
  unfold bind, logger_error, emit, raise. cbn [w_ext w_trace].
  now rewrite <- app_assoc.
Qed.

(** C3: in [create_agent], [list_agents] and [chat_with_agent], a service
    call that raises [e] makes the handler raise
    [HTTPException(status_code=500, detail=str(e))] (after logging), and a
    service call that returns makes the handler return: the service's
    value as it is in [chat_with_agent], wrapped as [{"agents": ..}] in
    [list_agents] and as [{"message": .., "agent": ..}] in [create_agent]. *)
Theorem route_handlers_500 (user_id : pyval) (db : db_session) (w : world) :
  (forall (request : AgentCreateRequest),
     let ev := EvCreateAgent user_id (name request) (description request)
                 (system_prompt request) (model request) (tools request)
                 (settings request) db in
     match svc_create_agent user_id (name request) (description request)
             (system_prompt request) (model request) (tools request)
             (settings request) db (w_ext w) with
     | (Raises e, s) =>
         create_agent request user_id db w =
           (Raise (HTTPException 500 (py_str e)),
            World s (w_trace w ++
                     [ev; EvLog ERROR "Error creating agent: " (LogExn e)]))
     | (Returns agent, s) =>
         create_agent request user_id db w =
           (Ok (PDict {[ "message" := PStr "Agent created successfully";
                         "agent" := agent ]}),
            World s (w_trace w ++ [ev]))
     end) /\
  (match svc_get_user_agents user_id db (w_ext w) with
   | (Raises e, s) =>
       list_agents user_id db w =
         (Raise (HTTPException 500 (py_str e)),
          World s (w_trace w ++
                   [EvGetUserAgents user_id db;
                    EvLog ERROR "Error listing agents: " (LogExn e)]))
   | (Returns agents, s) =>
       list_agents user_id db w =
         (Ok (PDict {[ "agents" := agents ]}),
          World s (w_trace w ++ [EvGetUserAgents user_id db]))
   end) /\
  (forall (request : ChatRequest),
     let ev := EvChatWithAgent user_id (agent_id request) (message request)
                 (conversation_id request) (stream request) db in
     match svc_chat_with_agent user_id (agent_id request) (message request)
             (conversation_id request) (stream request) db (w_ext w) with
     | (Raises e, s) =>
         chat_with_agent request user_id db w =
           (Raise (HTTPException 500 (py_str e)),
            World s (w_trace w ++
                     [ev; EvLog ERROR "Error in chat: " (LogExn e)]))
     | (Returns response, s) =>
         chat_with_agent request user_id db w =
           (Ok response, World s (w_trace w ++ [ev]))
     end).
Proof.
  split; [|split].
  - intros request ev. unfold create_agent. rewrite guarded_call_run.
    now destruct (svc_create_agent _ _ _ _ _ _ _ _ _) as [[a|e] s].
  - unfold list_agents. rewrite guarded_call_run.
    now destruct (svc_get_user_agents _ _ _) as [[a|e] s].
  - intros request ev. unfold chat_with_agent. rewrite guarded_call_run.
    now destruct (svc_chat_with_agent _ _ _ _ _ _ _) as [[a|e] s].
Qed.

End HttpFacts.

(** ** Request models *)

Section ValidationFacts.
Variable str_validator : pyval -> option string.
Variable bool_validator : pyval -> option bool.
Variable list_str_validator : pyval -> option (list string).
Variable dict_validator : pyval -> option (gmap string pyval).

Lemma required_field_missing {A} (v : pyval -> option A) d loc :
  d !! loc = None -> required_field v d loc = inl (FieldRequired loc).
Proof. intros H. unfold required_field. now rewrite H. Qed.

Lemma required_field_present {A} (v : pyval -> option A) d loc x a :
  d !! loc = Some x -> v x = Some a -> required_field v d loc = inr a.
Proof. intros H Hv. unfold required_field. now rewrite H, Hv. Qed.

Lemma default_field_absent {A} (v : pyval -> option A) dflt d loc :
  d !! loc = None -> default_field v dflt d loc = inr dflt.
Proof. intros H. unfold default_field. now rewrite H. Qed.

Ltac case_fields :=
  repeat match goal with
         | |- context [required_field ?v ?d ?k] =>
             destruct (required_field v d k)
         | |- context [default_field ?v ?x ?d ?k] =>
             destruct (default_field v x d k)
         end.

Ltac case_fields_in H :=
  repeat match type of H with
         | context [required_field ?v ?d ?k] =>
             destruct (required_field v d k) eqn:?
         | context [default_field ?v ?x ?d ?k] =>
             destruct (default_field v x d k) eqn:?
         end.

Ltac reject_missing H :=
  cbv zeta; rewrite (required_field_missing _ _ _ H); case_fields;
  (eexists; split; [reflexivity|]; simpl; auto 10).

Ltac default_taken H :=
  cbv zeta in H; case_fields_in H; try discriminate H;
  injection H as <-; cbn;
  repeat split; intros Habs;
  match goal with
  | E : default_field _ _ _ _ = inr _ |- _ =>
      rewrite (default_field_absent _ _ _ _ Habs) in E; congruence
  end.

(** C7: a body without ["name"], ["description"] or ["system_prompt"] is
    rejected as an [AgentCreateRequest], one without ["message"] or
    ["agent_id"] as a [ChatRequest], one without ["role"] or ["content"] as
    a [ChatMessage], each time with a "field required" error for that
    field.  The other fields may be absent: in a validated model an absent
    [model] is ["gpt-4"], absent [tools] are [[]], absent [settings] and
    [metadata] are [{}], absent [conversation_id] and [timestamp] are
    [None] and an absent [stream] is [False]; and a body that has just the
    required fields, with values their validator accepts, is valid. *)
Theorem dto_required_fields :
  (forall d k, In k ["name"; "description"; "system_prompt"] -> d !! k = None ->
     exists errs,
       validate_AgentCreateRequest str_validator list_str_validator
         dict_validator (PDict d) = ValidationError errs /\
       In (FieldRequired k) errs) /\
  (forall d k, In k ["message"; "agent_id"] -> d !! k = None ->
     exists errs,
       validate_ChatRequest str_validator bool_validator (PDict d)
         = ValidationError errs /\
       In (FieldRequired k) errs) /\
  (forall d k, In k ["role"; "content"] -> d !! k = None ->
     exists errs,
       validate_ChatMessage str_validator dict_validator (PDict d)
         = ValidationError errs /\
       In (FieldRequired k) errs) /\
  (forall d r,
     validate_AgentCreateRequest str_validator list_str_validator
       dict_validator (PDict d) = Valid r ->
     (d !! "model" = None -> model r = "gpt-4") /\
     (d !! "tools" = None -> tools r = []) /\
     (d !! "settings" = None -> settings r = ∅)) /\
  (forall d r,
     validate_ChatRequest str_validator bool_validator (PDict d) = Valid r ->
     (d !! "conversation_id" = None -> conversation_id r = None) /\
     (d !! "stream" = None -> stream r = false)) /\
  (forall d r,
     validate_ChatMessage str_validator dict_validator (PDict d) = Valid r ->
     (d !! "timestamp" = None -> cm_timestamp r = None) /\
     (d !! "metadata" = None -> metadata r = ∅)) /\
  (forall d x1 x2 x3 n de sp,
     d !! "name" = Some x1 -> str_validator x1 = Some n ->
     d !! "description" = Some x2 -> str_validator x2 = Some de ->
     d !! "system_prompt" = Some x3 -> str_validator x3 = Some sp ->
     d !! "model" = None -> d !! "tools" = None -> d !! "settings" = None ->
     validate_AgentCreateRequest str_validator list_str_validator
       dict_validator (PDict d)
       = Valid (mkAgentCreateRequest n de sp "gpt-4" [] ∅)) /\
  (forall d x1 x2 m a,
     d !! "message" = Some x1 -> str_validator x1 = Some m ->
     d !! "agent_id" = Some x2 -> str_validator x2 = Some a ->
     d !! "conversation_id" = None -> d !! "stream" = None ->
     validate_ChatRequest str_validator bool_validator (PDict d)
       = Valid (mkChatRequest m a None false)) /\
  (forall d x1 x2 ro c,
     d !! "role" = Some x1 -> str_validator x1 = Some ro ->
     d !! "content" = Some x2 -> str_validator x2 = Some c ->
     d !! "timestamp" = None -> d !! "metadata" = None ->
     validate_ChatMessage str_validator dict_validator (PDict d)
       = Valid (mkChatMessage ro c None ∅)).
Proof.
  repeat apply conj.
  - intros d k Hk H. unfold validate_AgentCreateRequest.
    destruct Hk as [<-|[<-|[<-|[]]]]; reject_missing H.
  - intros d k Hk H. unfold validate_ChatRequest.
    destruct Hk as [<-|[<-|[]]]; reject_missing H.
  - intros d k Hk H. unfold validate_ChatMessage.
    destruct Hk as [<-|[<-|[]]]; reject_missing H.
  - intros d r H. unfold validate_AgentCreateRequest in H. default_taken H.
  - intros d r H. unfold validate_ChatRequest in H. default_taken H.
  - intros d r H. unfold validate_ChatMessage in H. default_taken H.
  - intros d x1 x2 x3 n de sp H1 V1 H2 V2 H3 V3 A1 A2 A3.
    unfold validate_AgentCreateRequest. cbv zeta.
    rewrite (required_field_present _ _ _ _ _ H1 V1),
      (required_field_present _ _ _ _ _ H2 V2),
      (required_field_present _ _ _ _ _ H3 V3),
      !default_field_absent by assumption.
    reflexivity.
  - intros d x1 x2 m a H1 V1 H2 V2 A1 A2.
    unfold validate_ChatRequest. cbv zeta.
    rewrite (required_field_present _ _ _ _ _ H1 V1),
      (required_field_present _ _ _ _ _ H2 V2),
      !default_field_absent by assumption.
    reflexivity.
  - intros d x1 x2 ro c H1 V1 H2 V2 A1 A2.
    unfold validate_ChatMessage. cbv zeta.
    rewrite (required_field_present _ _ _ _ _ H1 V1),
      (required_field_present _ _ _ _ _ H2 V2),
      !default_field_absent by assumption.
    reflexivity.
Qed.

End ValidationFacts.

(** ** Cached settings *)

Section SettingsFacts.
Variable Settings : Type.
Variable Settings_init : gmap string string -> outcome Settings.

Local Abbreviation get_settings := (Config.get_settings Settings Settings_init).
Local Abbreviation running := (Config.running Settings Settings_init).

(** A hit leaves the process as it is. *)
Lemma get_settings_hit (p : Config.process Settings) (a : nat) :
  Config.cache Settings p = Some a -> get_settings p = (Returns a, p).
Proof.
  intros H. unfold Config.get_settings, Config.lru_cache. now rewrite H.
Qed.

(** What a successful import leaves behind. *)
Lemma import_config_state env a p :
  Config.import_config Settings Settings_init env = (Returns a, p) ->
  exists v,
    Settings_init env = Returns v /\
    a = 0%nat /\
    p = Config.Process Settings env [v] (Some 0%nat) 1.
Proof.
  unfold Config.import_config, Config.get_settings, Config.lru_cache,
    Config.new_Settings, Config.fresh. cbn.
  destruct (Settings_init env) as [v|e]; cbn; intros H; [|discriminate].
  injection H as <- <-. eauto.
Qed.

Lemma running_invariant (a : nat) (p : Config.process Settings) :
  running a p ->
  Config.cache Settings p = Some a /\
  Config.init_runs Settings p = 1%nat /\
  exists env0 v,
    Settings_init env0 = Returns v /\ Config.heap Settings p = [v] /\ a = 0%nat.
Proof.
  induction 1 as [env p Hi|p Hr IH|env p Hr IH].
  - destruct (import_config_state _ _ _ Hi) as (v & Hv & -> & ->).
    cbn. eauto 10.
  - destruct IH as (Hc & IH). rewrite (get_settings_hit _ _ Hc). cbn. auto.
  - exact IH.
Qed.

(** C8: in a process that has loaded the module, every call of
    [get_settings] returns the instance the import built (the module
    global [settings], at address [a]) and leaves the process as it is, so
    that any two calls return the same instance; [Settings()] has run once,
    at import, and the instance still holds what it read then, whatever
    has become of the environment since. *)
Theorem get_settings_singleton (a : nat) (p : Config.process Settings) :
  running a p ->
  get_settings p = (Returns a, p) /\
  Config.init_runs Settings p = 1%nat /\
  (forall p', running a p' -> fst (get_settings p') = fst (get_settings p)) /\
  exists env0 v,
    Settings_init env0 = Returns v /\
    Config.heap Settings p !! a = Some v.
Proof.
  intros Hr. destruct (running_invariant a p Hr) as (Hc & Hn & env0 & v & Hv & Hh & Ha).
  split; [exact (get_settings_hit _ _ Hc)|].
  split; [exact Hn|]. split.
  - intros p' Hr'. destruct (running_invariant a p' Hr') as (Hc' & _).
    now rewrite (get_settings_hit _ _ Hc), (get_settings_hit _ _ Hc').
  - exists env0, v. split; [exact Hv|]. now rewrite Hh, Ha.
Qed.

End SettingsFacts.

(** ** The properties on the scripted backend *)

Lemma websocket_chat_rejects_bad_token_witness :
  "bad" <> "" /\
  @verify_token demo "bad" (demo_ext [])
    = (Raises (PyException "JWTError" "Signature verification failed"),
       demo_ext []) /\
  @websocket_chat demo 3 1%nat "agent-7" (Some "bad") (demo_world [])
    = (Ok tt,
       World (demo_ext [])
         [EvVerifyToken "bad";
          EvLog ERROR "WebSocket authentication failed: "
            (LogExn (PyException "JWTError" "Signature verification failed"));
          EvClose 1%nat 4001 "Authentication failed"]).
Proof.
  split; [discriminate|]. split; [reflexivity|].
  apply (@websocket_chat_rejects_bad_token demo 3 1%nat "agent-7" "bad"
           (demo_world [])
           (PyException "JWTError" "Signature verification failed")
           (demo_ext []));
    [discriminate|reflexivity].
Defined.

Lemma receive_step_forwards_witness :
  let d : gmap string pyval :=
    {[ "message" := PStr "hi"; "conversation_id" := PStr "c1" ]} in
  let w := demo_world [Returns (PDict d)] in
  @ws_receive_json demo 1%nat (w_ext w) = (Returns (PDict d), demo_ext []) /\
  @receive_step demo 1%nat "agent-7" (PStr "alice") w
    = (Ok tt,
       World (demo_ext [])
         [EvReceiveJson 1%nat;
          EvProcessMessage "agent-7" (PStr "alice") (PStr "hi") (PStr "c1") 1%nat;
          EvSendJson 1%nat (PDict {[ "response" := PStr "hi" ]})]).
Proof.
  intros d w. split; [reflexivity|].
  exact (proj2 (proj2
           (@receive_step_forwards demo 1%nat "agent-7" (PStr "alice") w d
              (demo_ext []) eq_refl))).
Defined.

Lemma chat_session_teardown_witness :
  (1 <= 4)%nat /\
  @receive_loop demo 1 1%nat "agent-7" PNone (demo_world [])
    = (Raise (WebSocketDisconnect 1000), World (demo_ext []) [EvReceiveJson 1%nat]) /\
  @chat_session demo 4 1%nat "agent-7" PNone (demo_world [])
    = (Ok tt,
       World (demo_ext [])
         [EvReceiveJson 1%nat;
          EvLog INFO "WebSocket disconnected for user " (LogVal PNone);
          EvDisconnect 1%nat]) /\
  @receive_loop demo 1 1%nat "agent-7" PNone (demo_world [Returns (PInt 3)])
    = (Raise (AttributeError "'int' object has no attribute 'get'"),
       World (demo_ext []) [EvReceiveJson 1%nat]) /\
  @chat_session demo 4 1%nat "agent-7" PNone (demo_world [Returns (PInt 3)])
    = (Ok tt,
       World (demo_ext [])
         [EvReceiveJson 1%nat;
          EvLog ERROR "WebSocket error: "
            (LogExn (AttributeError "'int' object has no attribute 'get'"));
          EvClose 1%nat 4000 "Internal server error";
          EvDisconnect 1%nat]).
Proof.
  split; [lia|]. split; [reflexivity|]. split; [|split; [reflexivity|]].
  - apply (@chat_session_teardown demo 1 4 1%nat "agent-7" PNone
             (demo_world []) (World (demo_ext []) [EvReceiveJson 1%nat])
             (WebSocketDisconnect 1000)); [lia|reflexivity].
  - apply (@chat_session_teardown demo 1 4 1%nat "agent-7" PNone
             (demo_world [Returns (PInt 3)]) (World (demo_ext []) [EvReceiveJson 1%nat])
             (AttributeError "'int' object has no attribute 'get'"));
      [lia|reflexivity].
Defined.

Lemma websocket_chat_admits_anonymous_witness :
  token_given None = false /\
  token_given (Some "") = false /\
  (forall token, token = None \/ token = Some "" ->
   @websocket_chat demo 2 1%nat "agent-7" token (demo_world [])
     = (@call demo _ (EvConnect 1%nat PNone) (cm_connect 1%nat PNone) ;;;
        chat_session 2 1%nat "agent-7" PNone) (demo_world [])).
Proof.
  split; [reflexivity|]. split; [reflexivity|].
  intros token [->| ->];
    apply (@websocket_chat_admits_anonymous demo 2 1%nat "agent-7");
    reflexivity.
Defined.

Lemma get_current_user_401_witness :
  let anon := mkCredentials "Bearer" "anon" in
  let good := mkCredentials "Bearer" "good" in
  let request := mkAgentCreateRequest "helper" "d" "p" "gpt-4" [] ∅ in
  (exists e' w',
     w' = World (demo_ext [])
            [EvVerifyToken "anon";
             EvLog ERROR "Authentication failed: " (LogExn e')] /\
     @get_current_user demo anon (demo_world [])
       = (Raise (HTTPException 401 "Authentication failed"), w') /\
     @route_create_agent demo anon request (demo_world [])
       = (Raise (HTTPException 401 "Authentication failed"), w') /\
     @route_list_agents demo anon (demo_world [])
       = (Raise (HTTPException 401 "Authentication failed"), w')) /\
  @get_current_user demo good (demo_world [])
    = (Ok (PStr "alice"), World (demo_ext []) [EvVerifyToken "good"]).
Proof.
  intros anon good request. split.
  - destruct (proj1 (@get_current_user_401 demo anon (demo_world [])
                       (Returns (PDict {[ "sub" := PStr "" ]}))
                       (demo_ext []) eq_refl)) as (e' & w' & Hw & Hg & Hr).
    { intros d v [= <-] Hs. vm_compute in Hs. injection Hs as <-. reflexivity. }
    exists e', w'. split; [exact Hw|]. split; [exact Hg|].
    split; [exact (Hr _ (create_agent request))|exact (Hr _ list_agents)].
  - apply (proj2 (@get_current_user_401 demo good (demo_world [])
                    (Returns (PDict {[ "sub" := PStr "alice" ]}))
                    (demo_ext []) eq_refl)
             {[ "sub" := PStr "alice" ]} (PStr "alice")); reflexivity.
Defined.

Lemma dto_required_fields_witness :
  validate_AgentCreateRequest strict_str strict_list_str strict_dict
    (PDict {[ "name" := PStr "helper";
              "description" := PStr "answers questions";
              "system_prompt" := PStr "You are helpful." ]})
    = Valid (mkAgentCreateRequest "helper" "answers questions"
               "You are helpful." "gpt-4" [] ∅) /\
  (exists errs,
     validate_ChatRequest strict_str strict_bool
       (PDict {[ "message" := PStr "hello" ]}) = ValidationError errs /\
     In (FieldRequired "agent_id") errs).
Proof.
  destruct (dto_required_fields strict_str strict_bool strict_list_str strict_dict)
    as (_ & R2 & _ & _ & _ & _ & A1 & _ & _).
  split.
  - apply (A1 _ (PStr "helper") (PStr "answers questions")
             (PStr "You are helpful.")); reflexivity.
  - apply R2; [right; left; reflexivity|reflexivity].
Defined.

Lemma get_settings_singleton_witness :
  let p := snd (Config.import_config _ demo_Settings_init demo_environ) in
  let p' := Config.set_environ _ ∅ p in
  Config.running _ demo_Settings_init 0 p' /\
  Config.get_settings _ demo_Settings_init p' = (Returns 0%nat, p') /\
  Config.init_runs _ p' = 1%nat.
Proof.
  intros p p'.
  assert (Config.running _ demo_Settings_init 0 p') as Hr.
  { apply Config.running_environ.
    apply (Config.running_import _ demo_Settings_init 0 demo_environ).
    reflexivity. }
  split; [exact Hr|].
  destruct (get_settings_singleton _ demo_Settings_init 0%nat p' Hr)
    as (H1 & H2 & _).
  split; assumption.
Defined.

(** ** Runs of the handlers on the scripted backend *)

Example health_check_demo :
  @health_check demo (demo_world [])
  = (Ok (mkHealthResponse "healthy" "1.0.0" "2024-01-01T00:00:00"
           true false false),
     World (demo_ext [])
       [EvHealthCheck AgentSvc;
        EvHealthCheck VectorSvc;
        EvLog ERROR "Vector database health check failed: "
          (LogExn (PyException "ConnectionError" "vector store unreachable"));
        EvHealthCheck LLMSvc;
        EvUtcNow]).
Proof. reflexivity. Qed.

Example route_create_agent_demo :
  @route_create_agent demo (mkCredentials "Bearer" "good")
    (mkAgentCreateRequest "dup" "d" "p" "gpt-4" [] ∅) (demo_world [])
  = (Raise (HTTPException 500 "duplicate agent name"),
     World (demo_ext [])
       [EvVerifyToken "good"; EvGetDb;
        EvCreateAgent (PStr "alice") "dup" "d" "p" "gpt-4" [] ∅ 7%nat;
        EvLog ERROR "Error creating agent: "
          (LogExn (PyException "IntegrityError" "duplicate agent name"))]).
Proof. reflexivity. Qed.

Example route_chat_with_agent_demo :
  @route_chat_with_agent demo (mkCredentials "Bearer" "good")
    (mkChatRequest "hello" "agent-7" None false) (demo_world [])
  = (Ok (PStr "hello"),
     World (demo_ext [])
       [EvVerifyToken "good"; EvGetDb;
        EvChatWithAgent (PStr "alice") "agent-7" "hello" None false 7%nat]).
Proof. reflexivity. Qed.

(** A session of two frames: the first is answered, the second is no
    object, which ends the session with close code 4000. *)
Example websocket_chat_demo :
  @websocket_chat demo 5 1%nat "agent-7" (Some "good")
    (demo_world [Returns (PDict {[ "message" := PStr "hi" ]}); Returns (PInt 3)])
  = (Ok tt,
     World (demo_ext [])
       [EvVerifyToken "good";
        EvConnect 1%nat (PStr "alice");
        EvReceiveJson 1%nat;
        EvProcessMessage "agent-7" (PStr "alice") (PStr "hi") PNone 1%nat;
        EvSendJson 1%nat (PDict {[ "response" := PStr "hi" ]});
        EvReceiveJson 1%nat;
        EvLog ERROR "WebSocket error: "
          (LogExn (AttributeError "'int' object has no attribute 'get'"));
        EvClose 1%nat 4000 "Internal server error";
        EvDisconnect 1%nat]).
Proof. vm_compute. reflexivity. Qed.

(** The loop is still running when the model stops following it. *)
Example websocket_chat_pending :
  fst (@websocket_chat demo 1 1%nat "agent-7" None
         (demo_world [Returns (PDict ∅); Returns (PDict ∅)]))
  = Pending.
Proof. reflexivity. Qed.

Example validate_ChatMessage_demo :
  validate_ChatMessage strict_str strict_dict
    (PDict {[ "role" := PStr "user" ]})
  = ValidationError [FieldRequired "content"].
Proof. reflexivity. Qed.

(** * Further properties *)

(** ** The validators of [Settings] *)

Lemma str_split_length (sep : ascii) (s : string) :
  length (str_split sep s) = S (str_count sep s).
Proof.
  induction s as [|c s IH]; [reflexivity|]. cbn [str_split str_count].
  destruct (Ascii.eqb c sep); cbn [length]; [now rewrite IH|].
  destruct (str_split sep s) as [|piece rest]; [discriminate IH|exact IH].
Qed.

Lemma str_split_no_sep (sep : ascii) (s : string) :
  Forall (fun piece => str_count sep piece = 0%nat) (str_split sep s).
Proof.
  induction s as [|c s IH]; cbn [str_split].
  - repeat constructor.
  - destruct (Ascii.eqb c sep) eqn:E.
    + constructor; [reflexivity|exact IH].
    + destruct (str_split sep s) as [|piece rest].
      * constructor; [cbn; now rewrite E|constructor].
      * inversion IH as [|? ? Hp Hr]; subst.
        constructor; [cbn; now rewrite E, Hp|exact Hr].
Qed.

Lemma str_lstrip_count (c : ascii) (s : string) :
  (str_count c (str_lstrip s) <= str_count c s)%nat.
Proof.
  induction s as [|a s IH]; cbn [str_lstrip str_count]; [lia|].
  destruct (is_space a); cbn [str_count]; lia.
Qed.

Lemma str_rstrip_count (c : ascii) (s : string) :
  (str_count c (str_rstrip s) <= str_count c s)%nat.
Proof.
  induction s as [|a s IH]; cbn [str_rstrip str_count]; [lia|].
  destruct (str_rstrip s) as [|b r].
  - destruct (is_space a); cbn [str_count] in *; lia.
  - cbn [str_count] in *. lia.
Qed.

Lemma str_strip_count (c : ascii) (s : string) :
  (str_count c (str_strip s) <= str_count c s)%nat.
Proof.
  unfold str_strip. pose proof (str_rstrip_count c (str_lstrip s)).
  pose proof (str_lstrip_count c s). lia.
Qed.

Lemma str_lstrip_start (s : string) :
  starts_with_space (str_lstrip s) = false.
Proof.
  induction s as [|a s IH]; [reflexivity|]. cbn [str_lstrip].
  destruct (is_space a) eqn:E; [exact IH|]. cbn. exact E.
Qed.

Lemma str_rstrip_start (s : string) :
  starts_with_space s = false -> starts_with_space (str_rstrip s) = false.
Proof.
  destruct s as [|a s]; [reflexivity|]. cbn [starts_with_space str_rstrip].
  intros E. rewrite E. now destruct (str_rstrip s); cbn.
Qed.

Lemma str_rstrip_end (s : string) : ends_with_space (str_rstrip s) = false.
Proof.
  induction s as [|a s IH]; [reflexivity|]. cbn [str_rstrip].
  destruct (str_rstrip s) as [|b r].
  - destruct (is_space a) eqn:E; [reflexivity|]. cbn. exact E.
  - exact IH.
Qed.

Lemma str_lstrip_fixed (s : string) :
  starts_with_space s = false -> str_lstrip s = s.
Proof. destruct s as [|a s]; [reflexivity|]. cbn. now intros ->. Qed.

Lemma str_rstrip_fixed (s : string) :
  ends_with_space s = false -> str_rstrip s = s.
Proof.
  induction s as [|a s IH]; [reflexivity|]. intros E. cbn [str_rstrip].
  destruct s as [|b s'].
  - cbn in *. now rewrite E.
  - rewrite (IH E). reflexivity.
Qed.

Lemma str_strip_fixed (s : string) :
  starts_with_space s = false -> ends_with_space s = false -> str_strip s = s.
Proof.
  intros Hs He. unfold str_strip. rewrite (str_lstrip_fixed _ Hs).
  exact (str_rstrip_fixed _ He).
Qed.

Lemma str_split_whole (sep : ascii) (s : string) :
  str_count sep s = 0%nat -> str_split sep s = [s].
Proof.
  induction s as [|c s IH]; [reflexivity|]. cbn [str_count str_split].
  destruct (Ascii.eqb c sep); [discriminate|]. intros H.
  now rewrite (IH H).
Qed.

Lemma str_split_app (sep : ascii) (x rest : string) :
  str_count sep x = 0%nat ->
  str_split sep (x ++ String sep rest) = x :: str_split sep rest.
Proof.
  induction x as [|c x IH]; simpl.
  - rewrite Ascii.eqb_refl. reflexivity.
  - destruct (Ascii.eqb c sep); [discriminate|]. intros H.
    now rewrite (IH H).
Qed.

Lemma str_split_join (sep : ascii) (l : list string) :
  l <> [] ->
  Forall (fun x => str_count sep x = 0%nat) l ->
  str_split sep (str_join (String sep EmptyString) l) = l.
Proof.
  induction l as [|x l IH]; [congruence|]. intros _ H.
  inversion H as [|? ? Hx Hl]; subst.
  destruct l as [|y l].
  - cbn. exact (str_split_whole _ _ Hx).
  - change (str_join (String sep EmptyString) (x :: y :: l))
      with (x ++ String sep (str_join (String sep EmptyString) (y :: l))).
    rewrite (str_split_app _ _ _ Hx). f_equal. apply IH; [discriminate|exact Hl].
Qed.

Lemma parse_cors_str (f : pyval -> pyval) (s : string) :
  In f [parse_cors_origins; parse_cors_methods; parse_cors_headers] ->
  f (PStr s) = PList (map PStr (map str_strip (str_split comma s))).
Proof.
  intros [<-|[<-|[<-|[]]]]; cbn; now rewrite List.map_map.
Qed.

(** X1: applied to a string, each of the three validators returns a list
    with one entry per comma plus one; the list is never empty (the empty
    string gives one empty entry). *)
Theorem parse_cors_length (f : pyval -> pyval) (s : string) :
  In f [parse_cors_origins; parse_cors_methods; parse_cors_headers] ->
  exists pieces,
    f (PStr s) = PList (map PStr pieces) /\
    length pieces = S (str_count comma s).
Proof.
  intros Hf. exists (map str_strip (str_split comma s)).
  split; [exact (parse_cors_str f s Hf)|].
  now rewrite length_map, str_split_length.
Qed.

(** X2: every entry the validators produce from a string is a string
    without a comma that neither starts nor ends with a whitespace
    character. *)
Theorem parse_cors_entries_clean (f : pyval -> pyval) (s : string) (l : list pyval)
    (v : pyval) :
  In f [parse_cors_origins; parse_cors_methods; parse_cors_headers] ->
  f (PStr s) = PList l ->
  In v l ->
  exists x,
    v = PStr x /\
    str_count comma x = 0%nat /\
    starts_with_space x = false /\
    ends_with_space x = false.
Proof.
  intros Hf Hl Hv. rewrite (parse_cors_str f s Hf) in Hl.
  injection Hl as <-. rewrite List.map_map in Hv.
  apply List.in_map_iff in Hv as (piece & <- & Hp).
  exists (str_strip piece). split; [reflexivity|].
  pose proof (str_split_no_sep comma s) as Hn.
  rewrite List.Forall_forall in Hn. specialize (Hn _ Hp).
  pose proof (str_strip_count comma piece).
  split; [lia|]. unfold str_strip. split.
  - apply str_rstrip_start, str_lstrip_start.
  - apply str_rstrip_end.
Qed.

(** X3: joining with commas and parsing is the identity: a non-empty list
    of strings that hold no comma and have no whitespace at either end is
    what the validators return for its [",".join]. *)
Theorem parse_cors_join (f : pyval -> pyval) (l : list string) :
  In f [parse_cors_origins; parse_cors_methods; parse_cors_headers] ->
  l <> [] ->
  Forall (fun x => str_count comma x = 0%nat /\
                   starts_with_space x = false /\
                   ends_with_space x = false) l ->
  f (PStr (str_join "," l)) = PList (map PStr l).
Proof.
  intros Hf Hne Hl. rewrite (parse_cors_str f _ Hf).
  change "," with (String comma EmptyString).
  rewrite str_split_join; [|exact Hne|].
  - do 2 f_equal. clear Hne.
    induction Hl as [|x l (_ & Hs & He) _ IH]; [reflexivity|].
    cbn [map]. now rewrite IH, (str_strip_fixed _ Hs He).
  - eapply Forall_impl; [exact Hl|]. now intros x (H & _).
Qed.

(** X4: the validators are idempotent: what they return is left alone
    when validated again, whatever the input was. *)
Theorem parse_cors_idempotent (f : pyval -> pyval) (v : pyval) :
  In f [parse_cors_origins; parse_cors_methods; parse_cors_headers] ->
  f (f v) = f v.
Proof.
  intros [<-|[<-|[<-|[]]]]; now destruct v.
Qed.

Lemma parse_cors_length_witness :
  exists pieces,
    parse_cors_origins (PStr "http://a.example , https://b.example,")
      = PList (map PStr pieces) /\
    length pieces = 3%nat.
Proof.
  apply (parse_cors_length parse_cors_origins
           "http://a.example , https://b.example,").
  left. reflexivity.
Defined.

Lemma parse_cors_entries_clean_witness :
  exists x,
    PStr "POST" = PStr x /\
    str_count comma x = 0%nat /\
    starts_with_space x = false /\
    ends_with_space x = false.
Proof.
  apply (parse_cors_entries_clean parse_cors_methods " GET,  POST "
           [PStr "GET"; PStr "POST"] (PStr "POST")).
  - right; left; reflexivity.
  - reflexivity.
  - right; left; reflexivity.
Defined.

Lemma parse_cors_join_witness :
  parse_cors_headers (PStr "Authorization,Content-Type")
    = PList [PStr "Authorization"; PStr "Content-Type"].
Proof.
  apply (parse_cors_join parse_cors_headers ["Authorization"; "Content-Type"]).
  - right; right; left; reflexivity.
  - discriminate.
  - repeat constructor.
Defined.

Lemma parse_cors_idempotent_witness :
  parse_cors_origins (parse_cors_origins (PStr "a, b"))
    = parse_cors_origins (PStr "a, b").
Proof.
  apply (parse_cors_idempotent parse_cors_origins). left. reflexivity.
Defined.

(** ** More on [/ws/chat/{agent_id}] *)

Section SessionFacts.
Context {B : Backend}.

(** X5: a token that verifies to a payload that is no dict is rejected
    like a token that does not verify: [payload.get] raises inside the
    [try], the handler closes with code 4001 and makes no other call. *)
Theorem websocket_chat_rejects_bad_payload
    (fuel : nat) (ws : websocket) (agent t : string) (w : world)
    (p : pyval) (s : ext) :
  t <> "" ->
  verify_token t (w_ext w) = (Returns p, s) ->
  (forall d, p <> PDict d) ->
  websocket_chat fuel ws agent (Some t) w =
    (to_res (fst (ws_close ws 4001 "Authentication failed" s)),
     World (snd (ws_close ws 4001 "Authentication failed" s))
       (w_trace w ++
        [EvVerifyToken t;
         EvLog ERROR "WebSocket authentication failed: "
           (LogExn (no_attribute p "get"));
         EvClose ws 4001 "Authentication failed"])).
Proof.
  intros Ht Hv Hp. unfold websocket_chat, ws_authenticate.
  assert (truthy (PStr t) = true) as ->.
  { cbn. destruct (String.eqb_spec t ""); [contradiction|reflexivity]. }
  unfold bind at 1. unfold try_except.
  rewrite (bind_Ok _ _ _ _ _ (call_Returns _ _ _ _ _ Hv)).
  assert (py_get p "sub" PNone = Raises (no_attribute p "get")) as ->.
  { destruct p; try reflexivity. now destruct (Hp d). }
  cbn [of_outcome]. unfold bind at 1. unfold raise at 1.
  unfold logger_error, emit, bind. cbn [w_ext w_trace].
  rewrite call_run. cbn [w_ext w_trace].
  destruct (ws_close ws 4001 "Authentication failed" s) as [[[]|e'] s'];
    cbn; unfold ret; now rewrite <- !app_assoc.
Qed.

(** X6: with a token that verifies to the payload [d], the handler
    connects as [d.get("sub")] ([None] when [d] has no ["sub"]), and every
    later call is a call of the session of that user: each
    [process_message] carries that [user_id]. *)
Theorem websocket_chat_user_id
    (fuel : nat) (ws : websocket) (agent t : string) (w : world)
    (d : gmap string pyval) (s : ext) :
  t <> "" ->
  verify_token t (w_ext w) = (Returns (PDict d), s) ->
  exists tr,
    w_trace (snd (websocket_chat fuel ws agent (Some t) w))
      = (w_trace w ++
         EvVerifyToken t :: EvConnect ws (default PNone (d !! "sub")) :: tr)%list /\
    Forall (session_event ws agent (default PNone (d !! "sub"))) tr.
Proof.
  intros Ht Hv. rewrite (websocket_chat_authenticated _ _ _ _ _ _ _ Ht Hv).
  set (u := default PNone (d !! "sub")).
  unfold bind at 1. rewrite call_run. cbn [w_ext w_trace].
  destruct (cm_connect ws u s) as [[[]|e] s1]; cbn [to_res fst snd w_trace].
  - destruct (chat_session_events fuel ws agent u
                (World s1 ((w_trace w ++ [EvVerifyToken t]) ++ [EvConnect ws u])))
      as (tr & E & F & _).
    exists tr. rewrite E. cbn [w_trace]. split; [now rewrite <- !app_assoc|exact F].
  - exists []. split; [now rewrite <- !app_assoc|constructor].
Qed.

(** X7: [connect] is called outside the [try]: when it raises, the
    handler raises the same exception at once, without a pass of the loop
    and without calling [disconnect] or [close]. *)
Theorem websocket_chat_connect_raises
    (fuel : nat) (ws : websocket) (agent : string) (token : option string)
    (w w1 : world) (user_id : pyval) (e : exn) (s : ext) :
  ws_authenticate ws token w = (Ok (Some user_id), w1) ->
  cm_connect ws user_id (w_ext w1) = (Raises e, s) ->
  websocket_chat fuel ws agent token w
    = (Raise e, World s (w_trace w1 ++ [EvConnect ws user_id])).
Proof.
  intros Ha Hc. unfold websocket_chat.
  rewrite (bind_Ok _ _ _ _ _ Ha).
  now rewrite (bind_Raise _ _ _ _ _ (call_Raises _ _ _ _ _ Hc)).
Qed.

Lemma passes_snoc ws agent user_id n tr msg conv response :
  passes ws agent user_id n tr ->
  passes ws agent user_id (S n)
    (tr ++ [EvReceiveJson ws; EvProcessMessage agent user_id msg conv ws;
            EvSendJson ws response]).
Proof.
  induction 1 as [|n tr m c r H IH]; cbn.
  - repeat constructor.
  - now constructor.
Qed.

(** What one pass adds to the trace, by its result. *)
Lemma receive_step_shape ws agent user_id (w : world) :
  match receive_step ws agent user_id w with
  | (Ok _, w') =>
      exists msg conv response,
        w_trace w' = (w_trace w ++
                      [EvReceiveJson ws;
                       EvProcessMessage agent user_id msg conv ws;
                       EvSendJson ws response])%list
  | (Raise _, w') =>
      exists last, w_trace w' = (w_trace w ++ last)%list /\
                   cut_pass ws agent user_id last
  | (Pending, _) => False
  end.
Proof.
  rewrite receive_step_run. cbv zeta.
  destruct (ws_receive_json ws (w_ext w)) as [[data|e] s1].
  2:{ eexists. split; [reflexivity|]. now left. }
  destruct data; try (eexists; split; [reflexivity|]; now left).
  destruct (ws_process_message _ _ _ _ _ s1) as [[r|e] s2].
  2:{ eexists. split; [now rewrite <- app_assoc|]. right; left. eauto. }
  destruct (ws_send_json ws r s2) as [[[]|e] s3]; cbn [to_res fst snd].
  - eexists _, _, _. cbn [w_trace]. now rewrite <- !app_assoc.
  - eexists. cbn [w_trace]. split; [now rewrite <- !app_assoc|].
    right; right. eauto.
Qed.

Lemma receive_loop_shape (fuel : nat) ws agent user_id (w : world) :
  match receive_loop fuel ws agent user_id w with
  | (Ok _, _) => False
  | (Pending, w') =>
      exists tr, w_trace w' = (w_trace w ++ tr)%list /\
                 passes ws agent user_id fuel tr
  | (Raise _, w') =>
      exists n tr last,
        (n < fuel)%nat /\
        w_trace w' = (w_trace w ++ tr ++ last)%list /\
        passes ws agent user_id n tr /\
        cut_pass ws agent user_id last
  end.
Proof.
  revert w. induction fuel as [|k IH]; intros w; cbn [receive_loop].
  - exists []. cbn. rewrite app_nil_r. split; [reflexivity|constructor].
  - unfold bind. pose proof (receive_step_shape ws agent user_id w) as Hs.
    destruct (receive_step ws agent user_id w) as [[[]|e|] w1]; [| |contradiction].
    + destruct Hs as (m & c & r & E1). specialize (IH w1).
      destruct (receive_loop k ws agent user_id w1) as [[[]|e|] w2];
        [contradiction| |].
      * destruct IH as (n & tr & last & Hn & E2 & Hp & Hc).
        exists (S n), (EvReceiveJson ws :: EvProcessMessage agent user_id m c ws
                       :: EvSendJson ws r :: tr), last.
        split; [lia|]. split; [|split; [now constructor|exact Hc]].
        rewrite E2, E1. now rewrite <- !app_assoc.
      * destruct IH as (tr & E2 & Hp).
        exists (EvReceiveJson ws :: EvProcessMessage agent user_id m c ws
                :: EvSendJson ws r :: tr).
        split; [|now constructor]. rewrite E2, E1. now rewrite <- !app_assoc.
    + destruct Hs as (last & E1 & Hc).
      exists 0%nat, [], last. split; [lia|]. split; [exact E1|].
      split; [constructor|exact Hc].
Qed.

(** X8: as long as no call of the loop has raised, the handler has made
    complete passes only: after [fuel] passes the session's calls are
    [fuel] triples receive, process, send, and neither [close] nor
    [disconnect] has been called. *)
Theorem chat_session_running (fuel : nat) ws agent user_id (w w' : world) :
  chat_session fuel ws agent user_id w = (Pending, w') ->
  exists tr,
    w_trace w' = (w_trace w ++ tr)%list /\
    passes ws agent user_id fuel tr /\
    length tr = (3 * fuel)%nat.
Proof.
  intros H. pose proof (receive_loop_shape fuel ws agent user_id w) as Hl.
  destruct (receive_loop fuel ws agent user_id w) as [[[]|e|] w1] eqn:L;
    [contradiction| |].
  - exfalso. rewrite (chat_session_after_raise _ _ _ _ _ _ _ L) in H.
    destruct (is_WebSocketDisconnect e); cbv zeta in H.
    + destruct (cm_disconnect ws (w_ext w1)) as [[[]|e1] s1]; discriminate H.
    + destruct (ws_close ws 4000 _ (w_ext w1)) as [[[]|e1] s1]; cbn in H;
        destruct (cm_disconnect ws s1) as [[[]|e2] s2]; discriminate H.
  - unfold chat_session, try_finally, try_except in H. rewrite L in H.
    injection H as <-. destruct Hl as (tr & E & Hp).
    exists tr. split; [exact E|]. split; [exact Hp|].
    clear -Hp. induction Hp; cbn [length]; lia.
Qed.

(** Where the loop raised: after some complete passes, in a pass that
    raised the exception the loop ends with. *)
Lemma receive_loop_raised (fuel : nat) ws agent user_id (w w1 : world)
    (e : exn) :
  receive_loop fuel ws agent user_id w = (Raise e, w1) ->
  exists n tr wn,
    (n < fuel)%nat /\
    passes ws agent user_id n tr /\
    w_trace wn = (w_trace w ++ tr)%list /\
    receive_step ws agent user_id wn = (Raise e, w1).
Proof.
  revert w. induction fuel as [|k IH]; intros w; cbn [receive_loop].
  - discriminate.
  - unfold bind. pose proof (receive_step_shape ws agent user_id w) as Hs.
    destruct (receive_step ws agent user_id w) as [[[]|e0|] w0] eqn:Es;
      [| |contradiction].
    + destruct Hs as (m & c & r & E1). intros H.
      destruct (IH w0 H) as (n & tr & wn & Hn & Hp & E2 & Hstep).
      exists (S n), (EvReceiveJson ws :: EvProcessMessage agent user_id m c ws
                     :: EvSendJson ws r :: tr), wn.
      split; [lia|]. split; [now constructor|]. split; [|exact Hstep].
      rewrite E2, E1. now rewrite <- !app_assoc.
    + intros [= <- <-]. exists 0%nat, [], w.
      split; [lia|]. split; [constructor|]. split; [|exact Es].
      now rewrite app_nil_r.
Qed.

(** X9: a session that has ended has made some complete passes, then one
    pass cut short at the call that raised, then the teardown for the
    exception [e] that this pass, and with it the loop, raised: log and
    [disconnect] for a [WebSocketDisconnect], log, [close(4000)] and
    [disconnect] otherwise.  It made no other call; [disconnect] is the
    last one. *)
Theorem chat_session_ended (fuel : nat) ws agent user_id (w w' : world)
    (r : res unit) :
  chat_session fuel ws agent user_id w = (r, w') ->
  r <> Pending ->
  exists n tr wn last e w1,
    (n < fuel)%nat /\
    passes ws agent user_id n tr /\
    w_trace wn = (w_trace w ++ tr)%list /\
    receive_step ws agent user_id wn = (Raise e, w1) /\
    receive_loop fuel ws agent user_id w = (Raise e, w1) /\
    cut_pass ws agent user_id last /\
    w_trace w1 = (w_trace wn ++ last)%list /\
    w_trace w' = (w_trace w ++ tr ++ last ++ teardown ws user_id e)%list.
Proof.
  intros H Hr.
  destruct (receive_loop fuel ws agent user_id w) as [[u|e|] w1] eqn:L.
  - exfalso. eapply receive_loop_no_return. rewrite L. reflexivity.
  - destruct (receive_loop_raised _ _ _ _ _ _ _ L)
      as (n & tr & wn & Hn & Hp & E & Hstep).
    pose proof (receive_step_shape ws agent user_id wn) as Hs.
    rewrite Hstep in Hs. destruct Hs as (last & E1 & Hc).
    exists n, tr, wn, last, e, w1.
    repeat (split; [first [exact Hn|exact Hp|exact E|exact Hstep
                          |reflexivity|exact Hc|exact E1]|]).
    rewrite (chat_session_after_raise _ _ _ _ _ _ _ L) in H.
    unfold teardown.
    destruct (is_WebSocketDisconnect e); cbv zeta in H; injection H as _ <-;
      cbn [w_trace]; rewrite E1, E; now rewrite <- !app_assoc.
  - unfold chat_session, try_finally, try_except in H. rewrite L in H.
    injection H as <- _. contradiction.
Qed.

End SessionFacts.

(** ** More on authentication, the routes and [GET /health] *)

Section RouteFacts.
Context {B : Backend}.

(** X10: [get_current_user] ends in one of two ways: it returns a truthy
    user id after the single call of [verify_token], or it raises
    [HTTPException(401, "Authentication failed")]; the "Invalid token"
    exception of its body never leaves it. *)
Theorem get_current_user_outcomes
    (creds : HTTPAuthorizationCredentials) (w : world) :
  match get_current_user creds w with
  | (Ok user_id, w') =>
      truthy user_id = true /\
      w_trace w' = (w_trace w ++ [EvVerifyToken (credentials creds)])%list
  | (Raise e, _) => e = HTTPException 401 "Authentication failed"
  | (Pending, _) => False
  end.
Proof.
  rewrite get_current_user_run. cbv zeta.
  destruct (verify_token (credentials creds) (w_ext w)) as [[p|e] s];
    [|reflexivity].
  destruct p; try reflexivity.
  destruct (truthy (default PNone (d !! "sub"))) eqn:T; [|reflexivity].
  split; [exact T|reflexivity].
Qed.

(** X11: the three route handlers raise nothing but
    [HTTPException(500, ..)]: whatever the service raised, an
    [HTTPException] with another status included, reaches the client as a
    500. *)
Theorem route_handlers_raise_500_only
    (user_id : pyval) (db : db_session) (w : world) (e : exn) :
  (forall request, fst (create_agent request user_id db w) = Raise e ->
                   exists detail, e = HTTPException 500 detail) /\
  (fst (list_agents user_id db w) = Raise e ->
   exists detail, e = HTTPException 500 detail) /\
  (forall request, fst (chat_with_agent request user_id db w) = Raise e ->
                   exists detail, e = HTTPException 500 detail).
Proof.
  split; [|split].
  - intros request. unfold create_agent. rewrite guarded_call_run.
    destruct (svc_create_agent _ _ _ _ _ _ _ _ _) as [[a|e0] s]; cbn;
      [discriminate|]. intros [= <-]. eauto.
  - unfold list_agents. rewrite guarded_call_run.
    destruct (svc_get_user_agents _ _ _) as [[a|e0] s]; cbn;
      [discriminate|]. intros [= <-]. eauto.
  - intros request. unfold chat_with_agent. rewrite guarded_call_run.
    destruct (svc_chat_with_agent _ _ _ _ _ _ _) as [[a|e0] s]; cbn;
      [discriminate|]. intros [= <-]. eauto.
Qed.

(** X12: a handler behind the dependencies runs with the ["sub"] of the
    verified token as [user_id] and the session of [get_db] as [db], in the
    world the two dependencies left. *)
Theorem with_dependencies_runs_handler {A}
    (handler : pyval -> db_session -> M A)
    (creds : HTTPAuthorizationCredentials) (w : world)
    (d : gmap string pyval) (v : pyval) (s1 s2 : ext) (db : db_session) :
  verify_token (credentials creds) (w_ext w) = (Returns (PDict d), s1) ->
  d !! "sub" = Some v ->
  truthy v = true ->
  get_db s1 = (Returns db, s2) ->
  with_dependencies handler creds w
    = handler v db
        (World s2 (w_trace w ++ [EvVerifyToken (credentials creds); EvGetDb])).
Proof.
  intros Hv Hs Ht Hd. unfold with_dependencies.
  pose proof (get_current_user_run creds w) as R. cbv zeta in R.
  rewrite Hv, Hs in R. cbn [from_option id] in R. rewrite Ht in R.
  rewrite (bind_Ok _ _ _ _ _ R).
  assert (call EvGetDb get_db
            (World s1 (w_trace w ++ [EvVerifyToken (credentials creds)]))
          = (Ok db, World s2 (w_trace w ++
                              [EvVerifyToken (credentials creds); EvGetDb])))
    as Hc.
  { rewrite call_run. cbn [w_ext w_trace]. rewrite Hd. cbn.
    now rewrite <- app_assoc. }
  now rewrite (bind_Ok _ _ _ _ _ Hc).
Qed.

(** An exception of [get_db] leaves the dependencies as it is: the
    handler and its [try] are not reached. *)
Lemma with_dependencies_get_db_raises {A}
    (handler : pyval -> db_session -> M A)
    (creds : HTTPAuthorizationCredentials) (w w1 : world)
    (user_id : pyval) (e : exn) (s : ext) :
  get_current_user creds w = (Ok user_id, w1) ->
  get_db (w_ext w1) = (Raises e, s) ->
  with_dependencies handler creds w
    = (Raise e, World s (w_trace w1 ++ [EvGetDb])).
Proof.
  intros Hu Hd. unfold with_dependencies.
  rewrite (bind_Ok _ _ _ _ _ Hu).
  now rewrite (bind_Raise _ _ _ _ _ (call_Raises _ _ _ _ _ Hd)).
Qed.

(** X13: an exception of [get_db] is outside the [try] of the route
    handlers: no service is called and the handler's conversion to
    [HTTPException(500, str(e))] does not apply.  The request is answered
    by [global_exception_handler], which logs "Global exception: .." and
    returns status 500 with the content
    [{"message": "Internal server error", "detail": str(e)}]; an
    [HTTPException] of [get_db] is answered with its own status and
    detail. *)
Theorem get_db_failure_response
    (handler : pyval -> db_session -> M pyval)
    (creds : HTTPAuthorizationCredentials) (w w1 : world)
    (user_id : pyval) (e : exn) (s : ext) :
  get_current_user creds w = (Ok user_id, w1) ->
  get_db (w_ext w1) = (Raises e, s) ->
  respond (with_dependencies handler creds) w =
    match e with
    | HTTPException code detail =>
        (Ok (mkJSONResponse code (PDict {[ "detail" := PStr detail ]})),
         World s (w_trace w1 ++ [EvGetDb]))
    | _ =>
        (Ok (mkJSONResponse 500
               (PDict {[ "message" := PStr "Internal server error";
                         "detail" := PStr (py_str e) ]})),
         World s (w_trace w1 ++
                  [EvGetDb; EvLog ERROR "Global exception: " (LogExn e)]))
    end.
Proof.
  intros Hu Hd. unfold respond.
  rewrite (with_dependencies_get_db_raises handler creds w w1 user_id e s Hu Hd).
  destruct e; try reflexivity;
    unfold global_exception_handler, bind, logger_error, emit, ret;
    cbn [w_ext w_trace]; now rewrite <- app_assoc.
Qed.

Lemma probes_of_app (tr1 tr2 : list event) :
  probes_of (tr1 ++ tr2) = (probes_of tr1 ++ probes_of tr2)%list.
Proof.
  induction tr1 as [|ev tr1 IH]; [reflexivity|].
  destruct ev; cbn; now rewrite ?IH.
Qed.

Lemma error_logs_app (tr1 tr2 : list event) :
  error_logs (tr1 ++ tr2) = (error_logs tr1 + error_logs tr2)%nat.
Proof.
  induction tr1 as [|ev tr1 IH]; [reflexivity|].
  destruct ev as [[] ? ?| | | | | | | | | | | | |]; cbn; now rewrite ?IH.
Qed.

(** The calls of a guarded probe. *)
Lemma probe_guarded_calls (s : service) (prefix : string) (w : world) :
  exists tr,
    try_except (call (EvHealthCheck s) (svc_health_check s))
      (fun e => logger_error prefix e ;;; ret false) w
    = (Ok (probe_flag (fst (svc_health_check s (w_ext w)))),
       World (snd (svc_health_check s (w_ext w))) (w_trace w ++ tr)) /\
    probes_of tr = [s] /\
    error_logs tr = raised (fst (svc_health_check s (w_ext w))).
Proof.
  unfold try_except, call.
  destruct (svc_health_check s (w_ext w)) as [[b|e] s'] eqn:E; cbn.
  - exists [EvHealthCheck s]. repeat split.
  - exists [EvHealthCheck s; EvLog ERROR prefix (LogExn e)].
    unfold bind, logger_error, emit, ret; cbn. rewrite <- app_assoc.
    repeat split.
Qed.

(** X14: [health_check] calls each probe once, in the order database,
    vector database, LLM service, also when an earlier probe raised, and
    writes one error log line per probe that raised. *)
Theorem health_check_calls (w : world) :
  let p1 := svc_health_check AgentSvc (w_ext w) in
  let p2 := svc_health_check VectorSvc (snd p1) in
  let p3 := svc_health_check LLMSvc (snd p2) in
  exists tr,
    w_trace (snd (health_check w)) = (w_trace w ++ tr)%list /\
    probes_of tr = [AgentSvc; VectorSvc; LLMSvc] /\
    error_logs tr = (raised (fst p1) + raised (fst p2) + raised (fst p3))%nat.
Proof.
  cbv zeta. unfold health_check.
  destruct (probe_guarded_calls AgentSvc "Database health check failed: " w)
    as (t1 & H1 & P1 & L1).
  rewrite (bind_Ok _ _ _ _ _ H1). clear H1.
  match goal with |- context [bind _ _ ?w1] =>
    destruct (probe_guarded_calls VectorSvc
                "Vector database health check failed: " w1)
      as (t2 & H2 & P2 & L2) end.
  rewrite (bind_Ok _ _ _ _ _ H2). clear H2.
  match goal with |- context [bind _ _ ?w2] =>
    destruct (probe_guarded_calls LLMSvc "LLM service health check failed: " w2)
      as (t3 & H3 & P3 & L3) end.
  rewrite (bind_Ok _ _ _ _ _ H3). clear H3.
  cbn [w_ext w_trace] in *.
  unfold bind, utcnow, ret. cbn [w_ext w_trace].
  match goal with |- context [utcnow_isoformat ?s] =>
    destruct (utcnow_isoformat s) as [t s'] end.
  cbn [fst snd w_trace].
  exists (t1 ++ t2 ++ t3 ++ [EvUtcNow])%list.
  split; [now rewrite !app_assoc|].
  rewrite !probes_of_app, !error_logs_app, P1, P2, P3, L1, L2, L3. cbn.
  split; [reflexivity|lia].
Qed.

End RouteFacts.

(** ** Application lifespan *)

Section LifespanFacts.
Context {L : Lifecycle}.

Lemma lc_call_run (c : lifespan_call) (op : lc_state -> outcome unit * lc_state)
    (w : lc_state * list lifespan_call) :
  lc_call c op w = (fst (op (fst w)), (snd (op (fst w)), (snd w ++ [c])%list)).
Proof. unfold lc_call. now destruct (op (fst w)). Qed.

Lemma lifespan_startup_run (w : lc_state * list lifespan_call) :
  let tr0 := (snd w ++ [LcInfo "Starting AI Agent Platform..."])%list in
  lifespan_startup w =
    match init_db (fst w) with
    | (Raises e, s1) => (Raises e, (s1, tr0 ++ [LcInitDb]))
    | (Returns _, s1) =>
        match vector_initialize s1 with
        | (Raises e, s2) => (Raises e, (s2, tr0 ++ [LcInitDb; LcVectorInitialize]))
        | (Returns _, s2) =>
            match llm_initialize s2 with
            | (Raises e, s3) =>
                (Raises e,
                 (s3, tr0 ++ [LcInitDb; LcVectorInitialize; LcLLMInitialize]))
            | (Returns _, s3) =>
                (Returns tt,
                 (s3, tr0 ++ [LcInitDb; LcVectorInitialize; LcLLMInitialize;
                              LcInfo "AI Agent Platform started successfully!"]))
            end
        end
    end%list.
Proof.
  cbv zeta. unfold lifespan_startup, lc_then, lc_info, lc_call.
  cbn [fst snd].
  destruct (init_db (fst w)) as [[[]|e1] s1]; cbn [fst snd];
    [|now rewrite <- !app_assoc].
  destruct (vector_initialize s1) as [[[]|e2] s2]; cbn [fst snd];
    [|now rewrite <- !app_assoc].
  destruct (llm_initialize s2) as [[[]|e3] s3]; cbn [fst snd];
    now rewrite <- !app_assoc.
Qed.

Lemma lifespan_shutdown_run (w : lc_state * list lifespan_call) :
  let tr0 := (snd w ++ [LcInfo "Shutting down AI Agent Platform..."])%list in
  lifespan_shutdown w =
    match vector_close (fst w) with
    | (Raises e, s1) => (Raises e, (s1, tr0 ++ [LcVectorClose]))
    | (Returns _, s1) =>
        match llm_close s1 with
        | (Raises e, s2) => (Raises e, (s2, tr0 ++ [LcVectorClose; LcLLMClose]))
        | (Returns _, s2) =>
            (Returns tt,
             (s2, tr0 ++ [LcVectorClose; LcLLMClose;
                          LcInfo "AI Agent Platform shut down successfully!"]))
        end
    end%list.
Proof.
  cbv zeta. unfold lifespan_shutdown, lc_then, lc_info, lc_call.
  cbn [fst snd].
  destruct (vector_close (fst w)) as [[[]|e1] s1]; cbn [fst snd];
    [|now rewrite <- !app_assoc].
  destruct (llm_close s1) as [[[]|e2] s2]; cbn [fst snd];
    now rewrite <- !app_assoc.
Qed.

(** X15: the calls of a lifespan are always an initial part of the same
    sequence (log, init_db, vector initialize, LLM initialize, log, serve,
    log, vector close, LLM close, log): no call is skipped or reordered,
    and the sequence is complete exactly when the lifespan has returned
    without an exception. *)
Theorem lifespan_calls_in_order
    (serve : lc_state -> outcome unit * lc_state)
    (w : lc_state * list lifespan_call) :
  exists tr,
    snd (snd (lifespan serve w)) = (snd w ++ tr)%list /\
    tr `prefix_of` lifespan_script /\
    (fst (lifespan serve w) = Returns tt <-> tr = lifespan_script).
Proof.
  remember (lifespan serve w) as r eqn:Hr.
  unfold lifespan in Hr. unfold lc_then at 1 in Hr.
  rewrite lifespan_startup_run in Hr. cbv zeta in Hr. unfold lifespan_script.
  destruct (init_db (fst w)) as [[[]|e1] s1].
  2:{ subst r. eexists. cbn [fst snd]. split; [now rewrite <- app_assoc|].
      split; [eexists; reflexivity|]. split; discriminate. }
  destruct (vector_initialize s1) as [[[]|e2] s2].
  2:{ subst r. eexists. cbn [fst snd]. split; [now rewrite <- app_assoc|].
      split; [eexists; reflexivity|]. split; discriminate. }
  destruct (llm_initialize s2) as [[[]|e3] s3].
  2:{ subst r. eexists. cbn [fst snd]. split; [now rewrite <- app_assoc|].
      split; [eexists; reflexivity|]. split; discriminate. }
  unfold lc_then at 1 in Hr. rewrite lc_call_run in Hr. cbn [fst snd] in Hr.
  destruct (serve s3) as [[[]|e4] s4]; cbn [fst snd] in Hr.
  2:{ subst r. eexists. cbn [fst snd]. split; [now rewrite <- !app_assoc|].
      split; [eexists; reflexivity|]. split; discriminate. }
  rewrite lifespan_shutdown_run in Hr. cbv zeta in Hr. cbn [fst snd] in Hr.
  destruct (vector_close s4) as [[[]|e5] s5].
  2:{ subst r. eexists. cbn [fst snd]. split; [now rewrite <- !app_assoc|].
      split; [eexists; reflexivity|]. split; discriminate. }
  destruct (llm_close s5) as [[[]|e6] s6].
  2:{ subst r. eexists. cbn [fst snd]. split; [now rewrite <- !app_assoc|].
      split; [eexists; reflexivity|]. split; discriminate. }
  subst r. eexists. cbn [fst snd]. split; [now rewrite <- !app_assoc|].
  split; [reflexivity|]. split; reflexivity.
Qed.

(** X16: when a startup call raises, the lifespan raises the same
    exception whatever the application is: it is not served, and nothing
    that was initialised before is closed. *)
Theorem lifespan_startup_failure
    (w w' : lc_state * list lifespan_call) (e : exn) :
  lifespan_startup w = (Raises e, w') ->
  (forall serve, lifespan serve w = (Raises e, w')) /\
  exists tr,
    snd w' = (snd w ++ tr)%list /\
    ~ In LcServe tr /\ ~ In LcVectorClose tr /\ ~ In LcLLMClose tr.
Proof.
  intros H. split.
  - intros serve. unfold lifespan. unfold lc_then at 1. now rewrite H.
  - rewrite lifespan_startup_run in H. cbv zeta in H.
    destruct (init_db (fst w)) as [[[]|e1] s1].
    2:{ injection H as _ <-. eexists. cbn [snd].
        split; [now rewrite <- app_assoc|]. cbn. intuition discriminate. }
    destruct (vector_initialize s1) as [[[]|e2] s2].
    2:{ injection H as _ <-. eexists. cbn [snd].
        split; [now rewrite <- app_assoc|]. cbn. intuition discriminate. }
    destruct (llm_initialize s2) as [[[]|e3] s3]; [discriminate H|].
    injection H as _ <-. eexists. cbn [snd].
    split; [now rewrite <- app_assoc|]. cbn. intuition discriminate.
Qed.

(** X17: when the serving phase raises, the statements after [yield] are
    not run: neither service is closed and the exception leaves the
    lifespan as it is. *)
Theorem lifespan_serve_raises
    (serve : lc_state -> outcome unit * lc_state)
    (w w1 : lc_state * list lifespan_call) (e : exn) (s : lc_state) :
  lifespan_startup w = (Returns tt, w1) ->
  serve (fst w1) = (Raises e, s) ->
  lifespan serve w = (Raises e, (s, snd w1 ++ [LcServe])%list).
Proof.
  intros H Hs. unfold lifespan. unfold lc_then at 1. rewrite H.
  unfold lc_then. rewrite lc_call_run, Hs. reflexivity.
Qed.

(** X18: when [vector_service.close()] raises at shutdown,
    [llm_service.close()] is never called. *)
Theorem lifespan_vector_close_raises
    (serve : lc_state -> outcome unit * lc_state)
    (w w1 : lc_state * list lifespan_call) (e : exn) (s2 s3 : lc_state) :
  lifespan_startup w = (Returns tt, w1) ->
  serve (fst w1) = (Returns tt, s2) ->
  vector_close s2 = (Raises e, s3) ->
  lifespan serve w =
    (Raises e,
     (s3, snd w1 ++ [LcServe; LcInfo "Shutting down AI Agent Platform...";
                     LcVectorClose])%list).
Proof.
  intros H Hs Hc. unfold lifespan. unfold lc_then at 1. rewrite H.
  unfold lc_then at 1. rewrite lc_call_run, Hs. cbn [fst snd].
  rewrite lifespan_shutdown_run. cbv zeta. cbn [fst snd]. rewrite Hc.
  now rewrite <- !app_assoc.
Qed.

End LifespanFacts.

(** ** More on the cached settings *)

Section CacheFacts.
Variable Settings : Type.
Variable Settings_init : gmap string string -> outcome Settings.

Local Abbreviation get_settings := (Config.get_settings Settings Settings_init).

(** X19: [lru_cache] does not remember a call that raised: when
    [Settings()] raises on an empty cache the cache stays empty, so the
    next call runs the constructor again, and once the environment lets it
    succeed that call builds the instance and caches it. *)
Theorem get_settings_failure_not_cached
    (p : Config.process Settings) (e : exn) :
  Config.cache Settings p = None ->
  Settings_init (Config.environ Settings p) = Raises e ->
  let p1 := snd (get_settings p) in
  fst (get_settings p) = Raises e /\
  Config.cache Settings p1 = None /\
  Config.heap Settings p1 = Config.heap Settings p /\
  Config.init_runs Settings p1 = S (Config.init_runs Settings p) /\
  forall env v,
    Settings_init env = Returns v ->
    let r := get_settings (Config.set_environ Settings env p1) in
    let a := length (Config.heap Settings p) in
    fst r = Returns a /\
    Config.heap Settings (snd r) !! a = Some v /\
    Config.cache Settings (snd r) = Some a /\
    Config.init_runs Settings (snd r) = S (S (Config.init_runs Settings p)).
Proof.
  intros Hc He. cbv zeta.
  assert (get_settings p
          = (Raises e,
             Config.Process Settings (Config.environ Settings p)
               (Config.heap Settings p) None
               (S (Config.init_runs Settings p)))) as R.
  { unfold Config.get_settings, Config.lru_cache. rewrite Hc.
    unfold Config.new_Settings. now rewrite He, Hc. }
  rewrite R. cbn [fst snd Config.cache Config.heap Config.init_runs].
  repeat (split; [reflexivity|]). intros env v Hv.
  unfold Config.get_settings, Config.lru_cache, Config.set_environ,
    Config.new_Settings.
  cbn [Config.cache Config.heap Config.init_runs Config.environ].
  rewrite Hv. cbn [fst snd Config.cache Config.heap Config.init_runs].
  repeat split. rewrite lookup_app_r by lia. now rewrite Nat.sub_diag.
Qed.

End CacheFacts.

(** ** The fields of [Settings] *)

Lemma Settings_fields_distinct : NoDup (map field_name Settings_fields).
Proof. apply (bool_decide_unpack _). vm_compute. exact I. Qed.

Lemma Settings_required_fields (f : settings_field) :
  In f Settings_fields ->
  field_default f = None ->
  In (field_name f) ["DATABASE_URL"; "SECRET_KEY"; "OPENAI_API_KEY"]
  /\ field_type_of f = TStr.
Proof.
  revert f.
  apply (proj1 (List.Forall_forall
                  (fun f => field_default f = None ->
                            In (field_name f)
                               ["DATABASE_URL"; "SECRET_KEY"; "OPENAI_API_KEY"]
                            /\ field_type_of f = TStr)
                  Settings_fields)).
  unfold Settings_fields.
  repeat (constructor; [cbn; first [discriminate | intros _; split; [tauto|reflexivity]]|]).
  constructor.
Qed.

Section SettingsFieldFacts.
Variable json_loads : string -> option pyval.
Variable type_validator : field_type -> pyval -> option pyval.

Local Abbreviation source := (source_value json_loads).
Local Abbreviation sourced := (env_source json_loads).
Local Abbreviation validated1 := (validate_field type_validator).
Local Abbreviation validated := (validate_fields type_validator).
Local Abbreviation construct := (Settings_construct json_loads type_validator).

Lemma env_source_inr env fields vs :
  sourced env fields = inr vs ->
  map fst vs = fields /\
  forall f v, In (f, v) vs -> source env f = inr v.
Proof.
  revert vs. induction fields as [|f fields IH]; intros vs; cbn [env_source].
  - intros [= <-]. split; [reflexivity|]. intros f v [].
  - destruct (source env f) as [bad|v] eqn:Ef; [discriminate|].
    destruct (sourced env fields) as [bad|vs'] eqn:Er; [discriminate|].
    intros [= <-]. destruct (IH vs' eq_refl) as (Hm & Hv).
    split; [cbn; now rewrite Hm|].
    intros f' v' [[= <- <-]|Hin]; [exact Ef|now apply Hv].
Qed.

Lemma env_source_total env fields :
  (forall f, In f fields -> exists v, source env f = inr v) ->
  exists vs, sourced env fields = inr vs.
Proof.
  induction fields as [|f fields IH]; intros H; cbn [env_source].
  - eauto.
  - destruct (H f (or_introl eq_refl)) as [v ->].
    destruct IH as [vs ->]; [intros g Hg; apply H; now right|]. eauto.
Qed.

Lemma validate_fields_error vs f v e :
  In (f, v) vs -> validated1 f v = inl e ->
  In e (fst (validated vs)).
Proof.
  induction vs as [|[g u] vs IH]; [intros []|].
  cbn [validate_fields].
  destruct (validated vs) as [errs m]. cbn [fst] in IH.
  intros [[= <- <-]|Hin] He.
  - rewrite He. now left.
  - destruct (validated1 g u); cbn [fst]; [right|]; now apply IH.
Qed.

Lemma validate_fields_clean vs :
  (forall f v, In (f, v) vs -> exists y, validated1 f v = inr y) ->
  fst (validated vs) = [].
Proof.
  induction vs as [|[g u] vs IH]; [reflexivity|]. intros H.
  cbn [validate_fields].
  destruct (validated vs) as [errs m]. cbn [fst] in IH.
  destruct (H g u (or_introl eq_refl)) as [y ->]. cbn [fst].
  apply IH. intros f v Hin. apply H. now right.
Qed.

Lemma validate_fields_lookup vs f v y :
  NoDup (map field_name (map fst vs)) ->
  In (f, v) vs -> validated1 f v = inr y ->
  fst (validated vs) = [] ->
  snd (validated vs) !! field_name f = Some y.
Proof.
  induction vs as [|[g u] vs IH]; [intros _ []|].
  cbn [validate_fields map fst].
  intros Hnd Hin Hy. inversion Hnd as [|? ? Hnot Hnd']; subst.
  destruct (validated vs) as [errs m]. cbn [fst snd] in IH.
  destruct Hin as [[= <- <-]|Hin].
  - rewrite Hy. cbn [fst snd]. intros _. apply lookup_insert_eq.
  - destruct (validated1 g u) as [e|z]; cbn [fst snd]; [discriminate|].
    intros He. rewrite lookup_insert_ne; [now apply IH|].
    intros Heq. apply Hnot. apply list_elem_of_In. rewrite Heq.
    apply List.in_map. change f with (fst (f, v)). now apply List.in_map.
Qed.

Lemma Settings_construct_Ok env m :
  construct env = SettingsOk m ->
  exists vs,
    sourced env Settings_fields = inr vs /\
    fst (validated vs) = [] /\
    snd (validated vs) = m.
Proof.
  unfold Settings_construct.
  destruct (sourced env Settings_fields) as [bad|vs]; [discriminate|].
  destruct (validated vs) as [[|e errs] m'] eqn:Ev; [|discriminate].
  intros [= <-]. exists vs. now rewrite Ev.
Qed.

Lemma In_fields_sourced env vs f :
  sourced env Settings_fields = inr vs ->
  In f Settings_fields ->
  exists v, In (f, v) vs /\ source env f = inr v.
Proof.
  intros Hs Hf. destruct (env_source_inr _ _ _ Hs) as (Hm & Hv).
  rewrite <- Hm in Hf. apply List.in_map_iff in Hf as ([g v] & <- & Hin).
  exists v. split; [exact Hin|now apply Hv].
Qed.

Lemma validate_fields_all_valid vs f v :
  fst (validated vs) = [] -> In (f, v) vs ->
  exists y, validated1 f v = inr y.
Proof.
  intros He Hin. destruct (validated1 f v) as [e|y] eqn:E; [|eauto].
  pose proof (validate_fields_error _ _ _ _ Hin E) as Hbad.
  rewrite He in Hbad. destruct Hbad.
Qed.

Lemma sourced_names env vs :
  sourced env Settings_fields = inr vs ->
  NoDup (map field_name (map fst vs)).
Proof.
  intros Hs. destruct (env_source_inr _ _ _ Hs) as (-> & _).
  exact Settings_fields_distinct.
Qed.

Lemma required_field_declared (k : string) :
  In k ["DATABASE_URL"; "SECRET_KEY"; "OPENAI_API_KEY"] ->
  In (mkField k TStr None) Settings_fields.
Proof.
  intros [<-|[<-|[<-|[]]]].
  - apply (nth_error_In _ 6). reflexivity.
  - apply (nth_error_In _ 9). reflexivity.
  - apply (nth_error_In _ 12). reflexivity.
Qed.

Lemma cors_field_declared (k : string) :
  In k ["ALLOWED_ORIGINS"; "CORS_ALLOW_METHODS"; "CORS_ALLOW_HEADERS"] ->
  exists d,
    In (mkField k TListStr d) Settings_fields /\
    In (pre_validator k)
       [parse_cors_origins; parse_cors_methods; parse_cors_headers].
Proof.
  intros [<-|[<-|[<-|[]]]]; eexists; (split; [|cbn; tauto]).
  - apply (nth_error_In _ 5). reflexivity.
  - apply (nth_error_In _ 74). reflexivity.
  - apply (nth_error_In _ 75). reflexivity.
Qed.

(** X20: [Settings()] does not return when [DATABASE_URL], [SECRET_KEY]
    or [OPENAI_API_KEY] is not in the environment: it raises, and when it
    gets as far as validation the error list has "field required" for that
    variable. *)
Theorem Settings_requires_variables (env : gmap string string) (k : string) :
  In k ["DATABASE_URL"; "SECRET_KEY"; "OPENAI_API_KEY"] ->
  env !! k = None ->
  match Settings_construct json_loads type_validator env with
  | SettingsOk _ => False
  | SettingsError _ => True
  | SettingsInvalid errs => In (FieldRequired k) errs
  end.
Proof.
  intros Hk He. pose proof (required_field_declared k Hk) as Hf.
  unfold Settings_construct.
  destruct (sourced env Settings_fields) as [bad|vs] eqn:Es; [exact I|].
  destruct (In_fields_sourced _ _ _ Es Hf) as (v & Hin & Hv).
  unfold source_value in Hv. cbn [field_name] in Hv. rewrite He in Hv.
  injection Hv as <-.
  pose proof (validate_fields_error vs _ None (FieldRequired k) Hin eq_refl)
    as Hbad.
  destruct (validated vs) as [[|e errs] m]; [destruct Hbad|exact Hbad].
Qed.

(** X21: a [Settings] object that was built has a value for every field
    the class declares, and for a field whose variable is not in the
    environment that value is the declared default. *)
Theorem Settings_values_complete
    (env : gmap string string) (m : gmap string pyval) (f : settings_field) :
  Settings_construct json_loads type_validator env = SettingsOk m ->
  In f Settings_fields ->
  (exists y, m !! field_name f = Some y) /\
  (env !! field_name f = None ->
   exists d, field_default f = Some d /\ m !! field_name f = Some d).
Proof.
  intros Hc Hf. destruct (Settings_construct_Ok _ _ Hc) as (vs & Es & He & <-).
  destruct (In_fields_sourced _ _ _ Es Hf) as (v & Hin & Hv).
  destruct (validate_fields_all_valid _ _ _ He Hin) as [y Hy].
  pose proof (validate_fields_lookup _ _ _ _ (sourced_names _ _ Es) Hin Hy He)
    as Hl.
  split; [eauto|]. intros Hnone.
  unfold source_value in Hv. rewrite Hnone in Hv. injection Hv as <-.
  unfold validate_field in Hy. destruct (field_default f) as [d|]; [|discriminate].
  injection Hy as <-. eauto.
Qed.

(** X22: with the three required variables set to texts the [str]
    validator accepts, and no variable of a field with a default set,
    [Settings()] returns: the required fields hold the validated texts and
    every other field its default. *)
Theorem Settings_minimal_environment
    (env : gmap string string) (u k o : string) (u' k' o' : pyval) :
  env !! "DATABASE_URL" = Some u ->
  env !! "SECRET_KEY" = Some k ->
  env !! "OPENAI_API_KEY" = Some o ->
  type_validator TStr (PStr u) = Some u' ->
  type_validator TStr (PStr k) = Some k' ->
  type_validator TStr (PStr o) = Some o' ->
  (forall f, In f Settings_fields -> field_default f <> None ->
             env !! field_name f = None) ->
  exists m,
    Settings_construct json_loads type_validator env = SettingsOk m /\
    m !! "DATABASE_URL" = Some u' /\
    m !! "SECRET_KEY" = Some k' /\
    m !! "OPENAI_API_KEY" = Some o' /\
    forall f d, In f Settings_fields -> field_default f = Some d ->
                m !! field_name f = Some d.
Proof.
  intros Hu Hk Ho Vu Vk Vo Hrest.
  assert (forall f, In f Settings_fields ->
            exists v y, source env f = inr v /\ validated1 f v = inr y /\
              (forall d, field_default f = Some d -> y = d) /\
              (field_name f = "DATABASE_URL" -> y = u') /\
              (field_name f = "SECRET_KEY" -> y = k') /\
              (field_name f = "OPENAI_API_KEY" -> y = o')) as Hall.
  { intros f Hf. destruct (field_default f) as [d|] eqn:Ed.
    - assert (env !! field_name f = None) as Hn
        by (apply Hrest; [exact Hf|congruence]).
      exists None, d. unfold source_value, validate_field. rewrite Hn, Ed.
      repeat split; try congruence.
    - destruct (Settings_required_fields f Hf Ed) as (Hn & Ht).
      unfold source_value, validate_field. rewrite Ht. cbn [is_complex].
      destruct Hn as [<-|[<-|[<-|[]]]].
      + rewrite Hu. exists (Some (PStr u)), u'.
        change (pre_validator "DATABASE_URL") with (fun v : pyval => v). cbv beta.
        rewrite Vu. repeat split; try congruence; discriminate.
      + rewrite Hk. exists (Some (PStr k)), k'.
        change (pre_validator "SECRET_KEY") with (fun v : pyval => v). cbv beta.
        rewrite Vk. repeat split; try congruence; discriminate.
      + rewrite Ho. exists (Some (PStr o)), o'.
        change (pre_validator "OPENAI_API_KEY") with (fun v : pyval => v). cbv beta.
        rewrite Vo. repeat split; try congruence; discriminate. }
  destruct (env_source_total env Settings_fields) as [vs Es].
  { intros f Hf. destruct (Hall f Hf) as (v & _ & Hv & _). eauto. }
  destruct (env_source_inr _ _ _ Es) as (Hm & Hsrc).
  assert (forall f v, In (f, v) vs -> In f Settings_fields) as Hdecl.
  { intros f v Hin. rewrite <- Hm. change f with (fst (f, v)).
    now apply List.in_map. }
  assert (fst (validated vs) = []) as He.
  { apply validate_fields_clean. intros f v Hin.
    destruct (Hall f (Hdecl _ _ Hin)) as (v' & y & Hv' & Hy & _).
    rewrite (Hsrc _ _ Hin) in Hv'. injection Hv' as <-. eauto. }
  assert (forall f, In f Settings_fields ->
            exists y, snd (validated vs) !! field_name f = Some y /\
              (forall d, field_default f = Some d -> y = d) /\
              (field_name f = "DATABASE_URL" -> y = u') /\
              (field_name f = "SECRET_KEY" -> y = k') /\
              (field_name f = "OPENAI_API_KEY" -> y = o')) as Hlook.
  { intros f Hf. destruct (In_fields_sourced _ _ _ Es Hf) as (v & Hin & Hv).
    destruct (Hall f Hf) as (v' & y & Hv' & Hy & Hrestf).
    rewrite Hv in Hv'. injection Hv' as <-. exists y. split; [|exact Hrestf].
    exact (validate_fields_lookup _ _ _ _ (sourced_names _ _ Es) Hin Hy He). }
  exists (snd (validated vs)). split.
  { unfold Settings_construct. rewrite Es.
    destruct (validated vs) as [errs m]. cbn [fst snd] in *. now rewrite He. }
  repeat split.
  - destruct (Hlook _ (required_field_declared "DATABASE_URL" ltac:(cbn; tauto)))
      as (y & Hy & _ & H1 & _). cbn [field_name] in *. now rewrite Hy, (H1 eq_refl).
  - destruct (Hlook _ (required_field_declared "SECRET_KEY" ltac:(cbn; tauto)))
      as (y & Hy & _ & _ & H2 & _). cbn [field_name] in *. now rewrite Hy, (H2 eq_refl).
  - destruct (Hlook _ (required_field_declared "OPENAI_API_KEY" ltac:(cbn; tauto)))
      as (y & Hy & _ & _ & _ & H3). cbn [field_name] in *. now rewrite Hy, (H3 eq_refl).
  - intros f d Hf Hd. destruct (Hlook f Hf) as (y & Hy & Hdef & _).
    now rewrite Hy, (Hdef d Hd).
Qed.

(** X23: when the variable of [ALLOWED_ORIGINS], [CORS_ALLOW_METHODS] or
    [CORS_ALLOW_HEADERS] holds a JSON string, the field of the object
    built is what the list validator makes of the stripped pieces between
    the commas of that string. *)
Theorem Settings_cors_from_string
    (env : gmap string string) (m : gmap string pyval)
    (name raw s : string) :
  In name ["ALLOWED_ORIGINS"; "CORS_ALLOW_METHODS"; "CORS_ALLOW_HEADERS"] ->
  Settings_construct json_loads type_validator env = SettingsOk m ->
  env !! name = Some raw ->
  json_loads raw = Some (PStr s) ->
  m !! name
    = type_validator TListStr
        (PList (map PStr (map str_strip (str_split comma s)))).
Proof.
  intros Hn Hc He Hj. destruct (cors_field_declared name Hn) as (d & Hf & Hp).
  destruct (Settings_construct_Ok _ _ Hc) as (vs & Es & Hclean & <-).
  destruct (In_fields_sourced _ _ _ Es Hf) as (v & Hin & Hv).
  unfold source_value in Hv. cbn [field_name field_type_of is_complex] in Hv.
  rewrite He, Hj in Hv. injection Hv as <-.
  destruct (validate_fields_all_valid _ _ _ Hclean Hin) as [y Hy].
  pose proof (validate_fields_lookup _ _ _ _ (sourced_names _ _ Es) Hin Hy Hclean)
    as Hl.
  cbn [field_name] in Hl. rewrite Hl.
  unfold validate_field in Hy. cbn [field_name field_type_of] in Hy.
  rewrite (parse_cors_str _ s Hp) in Hy.
  destruct (type_validator TListStr _) as [z|]; [|discriminate].
  now injection Hy as <-.
Qed.

End SettingsFieldFacts.

(** ** The further properties on the scripted collaborators *)

Lemma websocket_chat_rejects_bad_payload_witness :
  @websocket_chat demo_faulty 3 1%nat "agent-7" (Some "list") (faulty_world [])
    = (Ok tt,
       World (faulty_ext [])
         [EvVerifyToken "list";
          EvLog ERROR "WebSocket authentication failed: "
            (LogExn (AttributeError "'list' object has no attribute 'get'"));
          EvClose 1%nat 4001 "Authentication failed"]).
Proof.
  apply (@websocket_chat_rejects_bad_payload demo_faulty 3 1%nat "agent-7" "list"
           (faulty_world []) (PList []) (faulty_ext []));
    [discriminate|reflexivity|discriminate].
Defined.

Lemma websocket_chat_user_id_witness :
  exists tr,
    w_trace (snd (@websocket_chat demo 4 1%nat "agent-7" (Some "good")
                    (demo_world [Returns (PDict ∅)])))
      = ([] ++ EvVerifyToken "good" :: EvConnect 1%nat (PStr "alice") :: tr)%list /\
    Forall (session_event 1%nat "agent-7" (PStr "alice")) tr.
Proof.
  assert ("good" <> "") as Ht by discriminate.
  exact (@websocket_chat_user_id demo 4 1%nat "agent-7" "good"
           (demo_world [Returns (PDict ∅)]) {[ "sub" := PStr "alice" ]}
           (demo_ext [Returns (PDict ∅)]) Ht eq_refl).
Defined.

Lemma websocket_chat_connect_raises_witness :
  @websocket_chat demo_faulty 3 1%nat "agent-7" None (faulty_world [])
    = (Raise (PyException "RuntimeError" "not accepted"),
       World (faulty_ext []) [EvConnect 1%nat PNone]).
Proof.
  apply (@websocket_chat_connect_raises demo_faulty 3 1%nat "agent-7" None
           (faulty_world []) (faulty_world []) PNone
           (PyException "RuntimeError" "not accepted") (faulty_ext []));
    reflexivity.
Defined.

Lemma chat_session_running_witness :
  let w := demo_world [Returns (PDict ∅); Returns (PDict ∅); Returns (PDict ∅)] in
  exists tr,
    w_trace (snd (@chat_session demo 2 1%nat "agent-7" PNone w))
      = (w_trace w ++ tr)%list /\
    passes 1%nat "agent-7" PNone 2 tr /\
    length tr = 6%nat.
Proof.
  intros w.
  apply (@chat_session_running demo 2 1%nat "agent-7" PNone w
           (snd (@chat_session demo 2 1%nat "agent-7" PNone w))).
  vm_compute. reflexivity.
Defined.

Lemma chat_session_ended_witness :
  let w := demo_world [Returns (PDict ∅)] in
  exists n tr last,
    (n < 5)%nat /\
    passes 1%nat "agent-7" PNone n tr /\
    cut_pass 1%nat "agent-7" PNone last /\
    w_trace (snd (@chat_session demo 5 1%nat "agent-7" PNone w))
      = (w_trace w ++ tr ++ last ++
         teardown 1%nat PNone (WebSocketDisconnect 1000))%list.
Proof.
  intros w.
  destruct (@chat_session_ended demo 5 1%nat "agent-7" PNone w
              (snd (@chat_session demo 5 1%nat "agent-7" PNone w)) (Ok tt))
    as (n & tr & wn & last & e & w1 & Hn & Hp & _ & _ & Hl & Hc & _ & Ht).
  - vm_compute. reflexivity.
  - discriminate.
  - vm_compute in Hl. injection Hl as <- _.
    exists n, tr, last. repeat split; assumption.
Defined.

Lemma route_handlers_raise_500_only_witness :
  exists detail,
    HTTPException 500 "duplicate agent name" = HTTPException 500 detail.
Proof.
  apply (proj1 (@route_handlers_raise_500_only demo (PStr "alice") 7%nat
                  (demo_world []) (HTTPException 500 "duplicate agent name"))
           (mkAgentCreateRequest "dup" "d" "p" "gpt-4" [] ∅)).
  reflexivity.
Defined.

Lemma with_dependencies_runs_handler_witness :
  @route_chat_with_agent demo (mkCredentials "Bearer" "good")
    (mkChatRequest "hello" "agent-7" None false) (demo_world [])
  = @chat_with_agent demo (mkChatRequest "hello" "agent-7" None false)
      (PStr "alice") 7%nat
      (World (demo_ext []) [EvVerifyToken "good"; EvGetDb]).
Proof.
  apply (@with_dependencies_runs_handler demo _
           (chat_with_agent (mkChatRequest "hello" "agent-7" None false))
           (mkCredentials "Bearer" "good") (demo_world [])
           {[ "sub" := PStr "alice" ]} (PStr "alice")
           (demo_ext []) (demo_ext []) 7%nat); reflexivity.
Defined.

Lemma get_db_failure_response_witness :
  @respond demo_faulty
    (route_list_agents (mkCredentials "Bearer" "any")) (faulty_world [])
  = (Ok (mkJSONResponse 500
           (PDict {[ "message" := PStr "Internal server error";
                     "detail" := PStr "database is down" ]})),
     World (faulty_ext [])
       [EvVerifyToken "any"; EvGetDb;
        EvLog ERROR "Global exception: "
          (LogExn (PyException "OperationalError" "database is down"))]).
Proof.
  apply (@get_db_failure_response demo_faulty list_agents
           (mkCredentials "Bearer" "any") (faulty_world [])
           (World (faulty_ext []) [EvVerifyToken "any"]) (PStr "bob")
           (PyException "OperationalError" "database is down") (faulty_ext []));
    reflexivity.
Defined.

Lemma lifespan_startup_failure_witness :
  let w' := ([LcLLMInitialize],
             [LcInfo "Starting AI Agent Platform..."; LcInitDb;
              LcVectorInitialize; LcLLMInitialize]) in
  (forall serve,
     @lifespan demo_lifecycle serve (demo_lc [LcLLMInitialize])
       = (Raises (PyException "RuntimeError" "unavailable"), w')) /\
  exists tr,
    snd w' = ([] ++ tr)%list /\
    ~ In LcServe tr /\ ~ In LcVectorClose tr /\ ~ In LcLLMClose tr.
Proof.
  intros w'.
  apply (@lifespan_startup_failure demo_lifecycle (demo_lc [LcLLMInitialize]) w'
           (PyException "RuntimeError" "unavailable")).
  reflexivity.
Defined.

Lemma lifespan_serve_raises_witness :
  @lifespan demo_lifecycle (demo_op LcServe) (demo_lc [LcServe])
  = (Raises (PyException "RuntimeError" "unavailable"),
     ([LcServe],
      [LcInfo "Starting AI Agent Platform..."; LcInitDb; LcVectorInitialize;
       LcLLMInitialize; LcInfo "AI Agent Platform started successfully!";
       LcServe])).
Proof.
  apply (@lifespan_serve_raises demo_lifecycle (demo_op LcServe)
           (demo_lc [LcServe])
           ([LcServe],
            [LcInfo "Starting AI Agent Platform..."; LcInitDb;
             LcVectorInitialize; LcLLMInitialize;
             LcInfo "AI Agent Platform started successfully!"])
           (PyException "RuntimeError" "unavailable") [LcServe]);
    reflexivity.
Defined.

Lemma lifespan_vector_close_raises_witness :
  @lifespan demo_lifecycle (demo_op LcServe) (demo_lc [LcVectorClose])
  = (Raises (PyException "RuntimeError" "unavailable"),
     ([LcVectorClose],
      [LcInfo "Starting AI Agent Platform..."; LcInitDb; LcVectorInitialize;
       LcLLMInitialize; LcInfo "AI Agent Platform started successfully!";
       LcServe; LcInfo "Shutting down AI Agent Platform..."; LcVectorClose])).
Proof.
  apply (@lifespan_vector_close_raises demo_lifecycle (demo_op LcServe)
           (demo_lc [LcVectorClose])
           ([LcVectorClose],
            [LcInfo "Starting AI Agent Platform..."; LcInitDb;
             LcVectorInitialize; LcLLMInitialize;
             LcInfo "AI Agent Platform started successfully!"])
           (PyException "RuntimeError" "unavailable")
           [LcVectorClose] [LcVectorClose]);
    reflexivity.
Defined.

Lemma get_settings_failure_not_cached_witness :
  let p := Config.fresh demo_Settings ∅ in
  let p1 := snd (Config.get_settings _ demo_Settings_init p) in
  let r := Config.get_settings _ demo_Settings_init
             (Config.set_environ _ demo_environ p1) in
  fst (Config.get_settings _ demo_Settings_init p)
    = Raises (PyException "ValidationError" "field required") /\
  Config.cache _ p1 = None /\
  fst r = Returns 0%nat /\
  Config.init_runs _ (snd r) = 2%nat.
Proof.
  intros p p1 r.
  destruct (get_settings_failure_not_cached _ demo_Settings_init p
              (PyException "ValidationError" "field required")
              eq_refl eq_refl) as (H1 & H2 & _ & _ & H5).
  split; [exact H1|]. split; [exact H2|].
  destruct (H5 demo_environ
              (mkDemoSettings "postgresql://db/agents" "s3cr3t" "sk-test")
              eq_refl) as (H6 & _ & _ & H7).
  split; [exact H6|exact H7].
Defined.

Lemma Settings_requires_variables_witness :
  match Settings_construct demo_json_loads strict_type_validator
          (delete "SECRET_KEY" demo_environ) with
  | SettingsOk _ => False
  | SettingsError _ => True
  | SettingsInvalid errs => In (FieldRequired "SECRET_KEY") errs
  end.
Proof.
  apply (Settings_requires_variables demo_json_loads strict_type_validator
           (delete "SECRET_KEY" demo_environ) "SECRET_KEY").
  - right; left; reflexivity.
  - reflexivity.
Defined.

Lemma Settings_values_complete_witness :
  let f := mkField "PORT" TInt (Some (PInt 8000)) in
  (exists y, settings_values demo_environ !! "PORT" = Some y) /\
  (demo_environ !! "PORT" = None ->
   exists d, Some (PInt 8000) = Some d /\
             settings_values demo_environ !! "PORT" = Some d).
Proof.
  intros f.
  apply (Settings_values_complete demo_json_loads strict_type_validator
           demo_environ (settings_values demo_environ) f).
  - vm_compute. reflexivity.
  - apply (nth_error_In _ 4). reflexivity.
Defined.

Lemma Settings_minimal_environment_witness :
  exists m,
    Settings_construct demo_json_loads strict_type_validator demo_environ
      = SettingsOk m /\
    m !! "DATABASE_URL" = Some (PStr "postgresql://db/agents") /\
    m !! "SECRET_KEY" = Some (PStr "s3cr3t") /\
    m !! "OPENAI_API_KEY" = Some (PStr "sk-test") /\
    forall f d, In f Settings_fields -> field_default f = Some d ->
                m !! field_name f = Some d.
Proof.
  apply (Settings_minimal_environment demo_json_loads strict_type_validator
           demo_environ "postgresql://db/agents" "s3cr3t" "sk-test");
    try reflexivity.
  apply (proj1 (List.Forall_forall
                  (fun f => field_default f <> None ->
                            demo_environ !! field_name f = None)
                  Settings_fields)).
  unfold Settings_fields.
  repeat (constructor;
          [cbn [field_default field_name];
           first [intros _; vm_compute; reflexivity
                 |intros H; now destruct H]|]).
  constructor.
Defined.

Lemma Settings_cors_from_string_witness :
  settings_values demo_cors_environ !! "ALLOWED_ORIGINS"
    = Some (PList [PStr "http://a.example"; PStr "https://b.example"]).
Proof.
  exact (Settings_cors_from_string demo_json_loads strict_type_validator
           demo_cors_environ (settings_values demo_cors_environ)
           "ALLOWED_ORIGINS"
           (String "034"%char (demo_origins ++ String "034"%char EmptyString))
           demo_origins
           (or_introl eq_refl)
           ltac:(vm_compute; reflexivity)
           ltac:(vm_compute; reflexivity)
           ltac:(vm_compute; reflexivity)).
Defined.

Lemma websocket_chat_forwards_witness :
  let d : gmap string pyval :=
    {[ "message" := PStr "hi"; "conversation_id" := PStr "c1" ]} in
  let wh := demo_world [Returns (PDict d)] in
  let w := World (demo_ext [Returns (PDict d)])
             [EvVerifyToken "good"; EvConnect 1%nat (PStr "alice")] in
  let w3 := World (demo_ext [])
              [EvVerifyToken "good"; EvConnect 1%nat (PStr "alice");
               EvReceiveJson 1%nat;
               EvProcessMessage "agent-7" (PStr "alice") (PStr "hi") (PStr "c1")
                 1%nat;
               EvSendJson 1%nat (PDict {[ "response" := PStr "hi" ]})] in
  @ws_receive_json demo 1%nat (w_ext w) = (Returns (PDict d), demo_ext []) /\
  @websocket_chat demo 3 1%nat "agent-7" (Some "good") wh
    = @chat_session demo 3 1%nat "agent-7" (PStr "alice") w /\
  @chat_session demo 3 1%nat "agent-7" (PStr "alice") w
    = @chat_session demo 2 1%nat "agent-7" (PStr "alice") w3.
Proof.
  intros d wh w w3. split; [reflexivity|].
  pose proof (@websocket_chat_forwards demo 2 1%nat "agent-7" (PStr "alice")
                w d (demo_ext []) eq_refl) as H.
  cbv zeta in H. destruct H as (_ & _ & Hpass & Hauth & _). split.
  - apply (Hauth 3%nat "good" wh {[ "sub" := PStr "alice" ]}
             (demo_ext [Returns (PDict d)]) (demo_ext [Returns (PDict d)]));
      [discriminate|reflexivity|reflexivity|reflexivity|reflexivity].
  - exact (proj2 Hpass).
Defined.
